(** * FireBreak Lambda functions: port control and port status

    A shallow embedding of [lambda_functions/port_control.py] and
    [lambda_functions/port_status.py], and the properties of the host
    validator, the boolean coercer, the port translation and the response
    envelopes.

    Python strings are modelled by [string]; a character stands for the code
    point of the same number, so the model covers the code points below 256.
    Beyond that range the patterns of the source, [str.isdigit] and [int]
    also take the decimal digits of other scripts; no string here holds one.
    Python integers are [Z], Python floats are binary64 [float]s.  A JSON
    text written by [json.dumps] is represented by the object that is
    written.  The calls of the logger do not change what the functions
    return and are left out. *)

From Stdlib Require Import ZArith String Ascii List Bool Lia Floats.
Import ListNotations.

#[local] Set Warnings "-register-all".

Open Scope string_scope.
Open Scope Z_scope.

(** ** Python string built-ins *)

Module PyStr.

Definition code (c : ascii) : N := N_of_ascii c.

Definition in_range (lo hi c : ascii) : bool :=
  ((code lo <=? code c) && (code c <=? code hi))%N.

(** [str.isspace] on one character. *)
Definition isspace (c : ascii) : bool :=
  let n := code c in
  (((9 <=? n) && (n <=? 13)) || ((28 <=? n) && (n <=? 32))
   || (n =? 133) || (n =? 160))%N.

(** The white space [int()] skips: ASCII white space, and the two
    non-ASCII spaces, which the conversion first rewrites to blanks. *)
Definition int_space (c : ascii) : bool :=
  let n := code c in
  (((9 <=? n) && (n <=? 13)) || (n =? 32) || (n =? 133) || (n =? 160))%N.

Fixpoint lstrip_by (sp : ascii -> bool) (s : string) : string :=
  match s with
  | String c r => if sp c then lstrip_by sp r else s
  | EmptyString => EmptyString
  end.

Fixpoint rstrip_by (sp : ascii -> bool) (s : string) : string :=
  match s with
  | String c r =>
      match rstrip_by sp r with
      | EmptyString => if sp c then EmptyString else String c EmptyString
      | r' => String c r'
      end
  | EmptyString => EmptyString
  end.

(** [str.strip()] *)
Definition strip (s : string) : string := rstrip_by isspace (lstrip_by isspace s).

Definition lower_char (c : ascii) : ascii :=
  let n := code c in
  if (((65 <=? n) && (n <=? 90))
      || ((192 <=? n) && (n <=? 222) && negb (n =? 215)))%N
  then ascii_of_N (n + 32) else c.

(** [str.lower()] *)
Fixpoint lower (s : string) : string :=
  match s with
  | String c r => String (lower_char c) (lower r)
  | EmptyString => EmptyString
  end.

Fixpoint all_chars (p : ascii -> bool) (s : string) : bool :=
  match s with
  | String c r => p c && all_chars p r
  | EmptyString => true
  end.

Definition is_ascii_digit (c : ascii) : bool := in_range "0" "9" c.

(** The characters [str.isdigit] accepts: the decimal digits and the
    superscript digits two, three and one. *)
Definition isdigit_char (c : ascii) : bool :=
  let n := code c in
  (is_ascii_digit c || (n =? 178) || (n =? 179) || (n =? 185))%N.

(** [str.isdigit()] *)
Definition isdigit (s : string) : bool :=
  negb (String.eqb s "") && all_chars isdigit_char s.

(** [ch in s] for a one-character [ch]. *)
Fixpoint contains_char (ch : ascii) (s : string) : bool :=
  match s with
  | String c r => Ascii.eqb ch c || contains_char ch r
  | EmptyString => false
  end.

(** [sub in s] for strings. *)
Fixpoint contains (sub s : string) : bool :=
  String.prefix sub s
  || match s with
     | String _ r => contains sub r
     | EmptyString => false
     end.

(** [s.split(sep)] for a one-character separator. *)
Fixpoint split (sep : ascii) (s : string) : list string :=
  match s with
  | EmptyString => [EmptyString]
  | String c r =>
      if Ascii.eqb c sep then EmptyString :: split sep r
      else match split sep r with
           | p :: ps => String c p :: ps
           | [] => [String c EmptyString]
           end
  end.

Definition digit_value (c : ascii) : Z := Z.of_N (code c) - 48.

(** The digits of an integer literal after the sign: decimal digits, with
    single underscores allowed between two digits.  [acc] is the value
    read so far, [n] the number of digits read, [prev_us] tells whether
    the previous character was an underscore.  The result is the value
    and the number of digits. *)
Fixpoint int_digits (s : string) (acc : Z) (n : nat) (prev_us : bool)
  : option (Z * nat) :=
  match s with
  | EmptyString => if prev_us then None else Some (acc, n)
  | String c r =>
      if is_ascii_digit c then int_digits r (10 * acc + digit_value c) (S n) false
      else if Ascii.eqb c "_" then
             if prev_us then None else int_digits r acc n true
           else None
  end.

(** [sys.int_info.default_max_str_digits]: [int] refuses a string of more
    digits (Python 3.11, and the security releases of the versions before). *)
Definition max_str_digits : nat := 4300.

(** [int(s)] for a string, base ten; [None] stands for [ValueError]. *)
Definition int_of_str (s : string) : option Z :=
  let t := rstrip_by int_space (lstrip_by int_space s) in
  let '(neg, body) :=
    match t with
    | String "+" r => (false, r)
    | String "-" r => (true, r)
    | _ => (false, t)
    end in
  match body with
  | EmptyString => None
  | String c _ =>
      if Ascii.eqb c "_" then None
      else match int_digits body 0 0%nat false with
           | Some (v, n) =>
               if (max_str_digits <? n)%nat then None
               else Some (if neg then - v else v)
           | None => None
           end
  end.

Definition digit_char (d : Z) : ascii := ascii_of_N (Z.to_N (48 + d)).

Fixpoint digits_of (fuel : nat) (n : Z) (acc : string) : string :=
  match fuel with
  | O => acc
  | S f =>
      let acc' := String (digit_char (n mod 10)) acc in
      if n <? 10 then acc' else digits_of f (n / 10) acc'
  end.

(** [str(n)] for an integer. *)
Definition str_of_int (n : Z) : string :=
  if n <? 0 then String "-" (digits_of (S (Z.to_nat (Z.log2 (- n)))) (- n) "")
  else digits_of (S (Z.to_nat (Z.log2 n))) n "".

End PyStr.

(** ** Regular expressions

    The two patterns of [validate_api_ip] as syntax trees, and [re.match] as
    a backtracking matcher in continuation-passing style: [run r s k] tries
    every way for [r] to consume a prefix of [s] and asks [k] about the rest.
    The order in which the alternatives are tried does not change whether a
    match exists, which is all [validate_api_ip] looks at.  The leading [^]
    of the patterns is implied by [re.match], which only matches at the
    start of the string. *)

Module Regex.

Inductive regex : Type :=
| Eps
| Sym (p : ascii -> bool)      (* one character of a class *)
| Cat (a b : regex)
| Alt (a b : regex)
| Star (a : regex)
| Look (a : regex)             (* lookahead *)
| Dollar.                      (* end anchor *)

(** [$] without [re.MULTILINE]: the end of the string, or just before a
    newline that ends the string. *)
Definition at_dollar (s : string) : bool :=
  match s with
  | EmptyString => true
  | String c EmptyString => Ascii.eqb c "010"
  | _ => false
  end.

(** The iterations of [a*]; an iteration that consumes nothing is not
    repeated. *)
Fixpoint star_loop (ma : string -> (string -> bool) -> bool)
    (k : string -> bool) (n : nat) (s : string) : bool :=
  if k s then true
  else match n with
       | O => false
       | S n' =>
           ma s (fun s' =>
                   if (String.length s' <? String.length s)%nat
                   then star_loop ma k n' s' else false)
       end.

Fixpoint run (r : regex) (s : string) (k : string -> bool) : bool :=
  match r with
  | Eps => k s
  | Sym p =>
      match s with
      | String c s' => if p c then k s' else false
      | EmptyString => false
      end
  | Cat a b => run a s (fun s' => run b s' k)
  | Alt a b => if run a s k then true else run b s k
  | Star a => star_loop (run a) k (String.length s) s
  | Look a => if run a s (fun _ => true) then k s else false
  | Dollar => if at_dollar s then k s else false
  end.

(** [re.match(r, s) is not None] *)
Definition re_match (r : regex) (s : string) : bool := run r s (fun _ => true).

(** [a?] *)
Definition Opt (a : regex) : regex := Alt a Eps.

(** [a{n}] *)
Fixpoint times (n : nat) (a : regex) : regex :=
  match n with
  | O => Eps
  | S n' => Cat a (times n' a)
  end.

(** [a{0,n}] *)
Fixpoint upto (n : nat) (a : regex) : regex :=
  match n with
  | O => Eps
  | S n' => Opt (Cat a (upto n' a))
  end.

(** [a{lo,hi}] *)
Definition Rep (lo hi : nat) (a : regex) : regex :=
  Cat (times lo a) (upto (hi - lo) a).

Definition Lit (c : ascii) : regex := Sym (Ascii.eqb c).
Definition Range (lo hi : ascii) : regex := Sym (PyStr.in_range lo hi).

(** [\d]: among the code points below 256 the decimal digits are 0-9.  The
    patterns of the source are [str] patterns compiled without [re.ASCII],
    so on other strings [\d] also matches the decimal digits of other
    scripts. *)
Definition Digit : regex := Range "0" "9".

(** [.] matches everything but a newline. *)
Definition Dot : regex := Sym (fun c => negb (Ascii.eqb c "010")).

Definition alnum (c : ascii) : bool :=
  PyStr.in_range "A" "Z" c || PyStr.in_range "a" "z" c || PyStr.in_range "0" "9" c.

(** [[A-Za-z0-9]] *)
Definition Alnum : regex := Sym alnum.

(** [[A-Za-z0-9\-]] *)
Definition AlnumHyphen : regex := Sym (fun c => alnum c || Ascii.eqb c "-").

(** One octet: "(?:25[0-5]|2[0-4]\d|[01]?\d\d?)" *)
Definition octet : regex :=
  Alt (Cat (Lit "2") (Cat (Lit "5") (Range "0" "5")))
      (Alt (Cat (Lit "2") (Cat (Range "0" "4") Digit))
           (Cat (Opt (Range "0" "1")) (Cat Digit (Opt Digit)))).

(** ipv4_pattern:
    "^(?:(?:25[0-5]|2[0-4]\d|[01]?\d\d?)\.){3}(?:25[0-5]|2[0-4]\d|[01]?\d\d?)$" *)
Definition ipv4_pattern : regex :=
  Cat (times 3 (Cat octet (Lit "."))) (Cat octet Dollar).

(** One label: "[A-Za-z0-9](?:[A-Za-z0-9\-]{0,61}[A-Za-z0-9])?" *)
Definition label : regex :=
  Cat Alnum (Opt (Cat (Rep 0 61 AlnumHyphen) Alnum)).

(** dns_pattern: "^(?=.{1,253}$)(?:LABEL TAIL)$", where LABEL is the text
    of one label and TAIL is the group "(?:\.(?:LABEL))" under a star. *)
Definition dns_pattern : regex :=
  Cat (Look (Cat (Rep 1 253 Dot) Dollar))
      (Cat (Cat label (Star (Cat (Lit ".") label))) Dollar).

(** The expressions that look at nothing beyond what they consume. *)
Fixpoint plain (r : regex) : bool :=
  match r with
  | Eps | Sym _ => true
  | Cat a b | Alt a b => plain a && plain b
  | Star a => plain a
  | Look _ | Dollar => false
  end.

(** One continuation accepts whatever another does. *)
Definition cont_le (k1 k2 : string -> bool) : Prop :=
  forall s, k1 s = true -> k2 s = true.

Definition mono (ma : string -> (string -> bool) -> bool) : Prop :=
  forall s k1 k2, cont_le k1 k2 -> ma s k1 = true -> ma s k2 = true.

(** [consumes r w]: wherever [w] is followed by a rest the continuation
    accepts, [r] matches by consuming [w]. *)
Definition consumes (r : regex) (w : string) : Prop :=
  forall rest k, k rest = true -> run r (w ++ rest) k = true.

End Regex.

(** ** Python values, exceptions and the outside world *)

(** The values [json.loads] produces and the handlers receive.  A dict is
    the list of its items in insertion order; its keys are distinct. *)
Inductive pyval : Type :=
| PNone
| PBool (b : bool)
| PInt (n : Z)
| PFloat (x : float)
| PStr (s : string)
| PList (l : list pyval)
| PDict (d : list (string * pyval)).

Definition dict := list (string * pyval).

(** [key in d] and [d[key]] *)
Fixpoint dict_get (key : string) (d : dict) : option pyval :=
  match d with
  | [] => None
  | (k, v) :: r => if String.eqb k key then Some v else dict_get key r
  end.

(** [d[key] = v]: an existing key keeps its place, a new one goes last. *)
Fixpoint dict_set (key : string) (v : pyval) (d : dict) : dict :=
  match d with
  | [] => [(key, v)]
  | (k, w) :: r =>
      if String.eqb k key then (k, v) :: r else (k, w) :: dict_set key v r
  end.

(** [d.get(key)] *)
Definition py_get (key : string) (d : dict) : pyval :=
  match dict_get key d with
  | Some v => v
  | None => PNone
  end.

(** [bool(v)] *)
Definition truthy (v : pyval) : bool :=
  match v with
  | PNone => false
  | PBool b => b
  | PInt n => negb (n =? 0)
  | PFloat x => negb (PrimFloat.eqb x 0%float)
  | PStr s => negb (String.eqb s "")
  | PList l => match l with [] => false | _ => true end
  | PDict d => match d with [] => false | _ => true end
  end.

(** [v == s] for a string [s] *)
Definition eq_str (s : string) (v : pyval) : bool :=
  match v with
  | PStr t => String.eqb t s
  | _ => false
  end.

(** [type(v).__name__] *)
Definition type_name (v : pyval) : string :=
  match v with
  | PNone => "NoneType"
  | PBool _ => "bool"
  | PInt _ => "int"
  | PFloat _ => "float"
  | PStr _ => "str"
  | PList _ => "list"
  | PDict _ => "dict"
  end.

(** [isinstance(v, int)], with the integer; [bool] is a subclass of [int]. *)
Definition as_int (v : pyval) : option Z :=
  match v with
  | PInt n => Some n
  | PBool b => Some (if b then 1 else 0)
  | _ => None
  end.

(** The exception classes the handlers tell apart.  [JSONDecodeError] is a
    subclass of [ValueError] (as is the [UnicodeDecodeError] of a body that
    is not UTF-8) and [HTTPError] one of [URLError].  urllib turns into
    [URLError] what fails while it connects and sends; a timeout while the
    response is awaited or read reaches the caller as the [TimeoutError] of
    the socket, which is not a [URLError].  [OtherError] stands for every
    other class ([TypeError], [AttributeError], [RecursionError], ...). *)
Inductive exn : Type :=
| JSONDecodeError
| ValueError (msg : string)                (* msg is str(err) *)
| HTTPError (code : Z) (reason : string)
| URLError (text : string)                 (* text is str(err) *)
| TimeoutError
| OtherError.

Definition is_ValueError (e : exn) : bool :=
  match e with
  | JSONDecodeError | ValueError _ => true
  | _ => false
  end.

Inductive outcome (A : Type) : Type :=
| Ok (a : A)
| Raise (e : exn).
Arguments Ok {A} a.
Arguments Raise {A} e.

Definition bind {A B : Type} (m : outcome A) (f : A -> outcome B) : outcome B :=
  match m with
  | Ok a => f a
  | Raise e => Raise e
  end.

Notation "x <- m ;; f" := (bind m (fun x => f))
  (at level 61, m at next level, right associativity).

(** A loop body run over a list; the first exception ends the loop. *)
Fixpoint for_each {A B : Type} (f : A -> outcome B) (l : list A) : outcome (list B) :=
  match l with
  | [] => Ok []
  | a :: r => b <- f a ;; bs <- for_each f r ;; Ok (b :: bs)
  end.

(** What [urllib.request.urlopen] is called with: one record for each call,
    not for each request urllib sends to serve it. *)
Record request : Type := {
  req_method : string;
  req_url : string;
  req_headers : list (string * string);
  req_data : option pyval;       (* the object given to json.dumps *)
  req_verify_tls : bool;
  req_timeout : Z
}.

(** What the call and [resp.read().decode("utf-8")] give: the text of the
    response, or an exception. *)
Inductive response : Type :=
| Body (text : string)
| Failure (e : exn).

(** Why [json.loads] does not decode a text. *)
Inductive json_failure : Type :=
| NotJSON                         (* JSONDecodeError: the text is not JSON *)
| RefusedNumber (msg : string)    (* ValueError: an integer of too many digits *)
| TooDeep.                        (* RecursionError: the nesting is too deep *)

(** The exception [json.loads] raises then. *)
Definition raised (f : json_failure) : exn :=
  match f with
  | NotJSON => JSONDecodeError
  | RefusedNumber msg => ValueError msg
  | TooDeep => OtherError
  end.

(** The built-ins and the device the functions rely on: [json.loads]
    ([None] when it raises, and [json_refusal] then tells why), [repr],
    [round(x, 2)] and the device behind [urlopen]. *)
Record runtime : Type := {
  json_loads : string -> option pyval;
  json_refusal : string -> json_failure;
  py_repr : pyval -> string;
  round2 : float -> float;
  urlopen : request -> response
}.

(** The module globals read from the environment. *)
Record config : Type := {
  API_IP : string;
  API_TOKEN : string;
  DISABLE_SSL_VERIFY : bool;
  PORT_OFFSET : bool
}.

(** The response envelope; [body] is the object given to [json.dumps]. *)
Record envelope : Type := {
  statusCode : Z;
  headers : list (string * string);
  body : pyval
}.

Definition respond (code : Z) (b : pyval) : envelope :=
  {| statusCode := code;
     headers := [("Content-Type", "application/json")];
     body := b |}.

(** [str(v)], as an f-string formats a value. *)
Definition py_str (rt : runtime) (v : pyval) : string :=
  match v with
  | PNone => "None"
  | PBool b => if b then "True" else "False"
  | PInt n => PyStr.str_of_int n
  | PStr s => s
  | _ => py_repr rt v
  end.

(** [round((time.time() - start_time) * 1000, 2)] *)
Definition execution_time_ms (rt : runtime) (start_time now : float) : pyval :=
  PFloat (round2 rt ((now - start_time) * 1000)%float).

(** [v + 1] *)
Definition add1 (v : pyval) : outcome pyval :=
  match v with
  | PInt n => Ok (PInt (n + 1))
  | PBool b => Ok (PInt ((if b then 1 else 0) + 1))
  | PFloat x => Ok (PFloat (x + 1)%float)
  | _ => Raise OtherError
  end.

(** The body of the loops over the device's list:
    [if 'port' in port_data: port_data['port'] = port_data['port'] + 1]. *)
Definition shift_port (port_data : pyval) : outcome pyval :=
  match port_data with
  | PDict d =>
      match dict_get "port" d with
      | Some v => v' <- add1 v ;; Ok (PDict (dict_set "port" v' d))
      | None => Ok port_data
      end
  | PStr s => if PyStr.contains "port" s then Raise OtherError else Ok port_data
  | PList l => if existsb (eq_str "port") l then Raise OtherError else Ok port_data
  | _ => Raise OtherError
  end.

(** ** validate_api_ip (the same text in both files) *)

Definition validate_api_ip (ip_str : string) : bool :=
  if String.eqb ip_str "" then false
  else if existsb (fun ch => PyStr.contains_char ch ip_str)
            ["@"; "/"; "\"; "?"; "#"]%char
  then false
  else
    let parts := PyStr.split ":" ip_str in
    if (2 <? length parts)%nat then false
    else
      let host := nth 0 parts "" in
      let port_str := if (length parts =? 2)%nat then Some (nth 1 parts "") else None in
      if negb (String.eqb host "localhost"
               || Regex.re_match Regex.ipv4_pattern host
               || Regex.re_match Regex.dns_pattern host)
      then false
      else
        match port_str with
        | Some ps =>
            if negb (PyStr.isdigit ps) then false
            else match PyStr.int_of_str ps with
                 | Some port => if (port <? 1) || (port >? 65535) then false else true
                 | None => false        (* except Exception *)
                 end
        | None => true
        end.

(** The module level code: read the environment, refuse a missing or
    invalid API_IP. *)
Definition load_globals (environ : string -> option string) : outcome config :=
  let get key default := match environ key with Some v => v | None => default end in
  let api_ip := get "API_IP" "" in
  if String.eqb api_ip "" then Raise (ValueError "API_IP environment variable is missing")
  else if negb (validate_api_ip api_ip)
  then Raise (ValueError ("Invalid API_IP environment variable: " ++ api_ip))
  else Ok {| API_IP := api_ip;
             API_TOKEN := get "API_TOKEN" "";
             DISABLE_SSL_VERIFY :=
               String.eqb (PyStr.lower (get "DISABLE_SSL_VERIFY" "true")) "true";
             PORT_OFFSET :=
               String.eqb (PyStr.lower (get "PORT_OFFSET" "false")) "true" |}.

(** ** lambda_functions/port_control.py *)

Module port_control.
Section Functions.

Variable rt : runtime.
Variable cfg : config.

Definition API_URL : string :=
  "https://" ++ API_IP cfg ++ "/api/websocket/port-control".

(** [parse_bool] *)
Definition parse_bool (value : pyval) : outcome bool :=
  match value with
  | PBool b => Ok b
  | PInt n =>
      if (n =? 0) || (n =? 1) then Ok (negb (n =? 0))
      else Raise (ValueError ("Invalid integer for boolean: " ++ py_str rt value))
  | PStr s =>
      let v := PyStr.lower (PyStr.strip s) in
      if existsb (String.eqb v) ["true"; "1"; "yes"; "y"; "on"] then Ok true
      else if existsb (String.eqb v) ["false"; "0"; "no"; "n"; "off"] then Ok false
      else Raise (ValueError ("Invalid string for boolean: " ++ py_repr rt value))
  | _ => Raise (ValueError ("Unsupported type for boolean: " ++ type_name value))
  end.

(** [control_port], the block "Validate and convert port parameter":
    the value of [api_port], or the [ValueError]. *)
Definition api_port (port : pyval) : outcome pyval :=
  match as_int port with
  | Some n =>
      if PORT_OFFSET cfg then
        if (n <? 1) || (n >? 12) then
          Raise (ValueError
            ("FireBreak port must be an integer between 1 and 12 (physical numbering), got: "
             ++ py_str rt port))
        else Ok (PInt (n - 1))
      else
        if (n <? 0) || (n >? 11) then
          Raise (ValueError
            ("FireBreak port must be an integer between 0 and 11 (API numbering), got: "
             ++ py_str rt port))
        else Ok port
  | None =>
      if eq_str "all" port then Ok (PStr "all")
      else
        let port_range := if PORT_OFFSET cfg then "1-12" else "0-11" in
        let numbering := if PORT_OFFSET cfg then "physical" else "API" in
        Raise (ValueError
          ("FireBreak port must be an integer (" ++ port_range ++ ", " ++ numbering
           ++ " numbering) or 'all', got: " ++ py_str rt port))
  end.

(** [control_port], the block "Apply port offset to response if enabled". *)
Definition offset_response (raw_response : pyval) : outcome pyval :=
  if PORT_OFFSET cfg then
    match raw_response with
    | PDict d =>
        match dict_get "port" d with
        | Some v => v' <- add1 v ;; Ok (PDict (dict_set "port" v' d))
        | None => Ok raw_response
        end
    | PList ports_list => l <- for_each shift_port ports_list ;; Ok (PList l)
    | _ => Ok raw_response
    end
  else Ok raw_response.

(** The request [control_port] sends for a device port. *)
Definition port_control_request (api_port : pyval) (activate : bool) : request :=
  {| req_method := "POST";
     req_url := API_URL;
     req_headers := [("accept", "application/json");
                     ("Authorization", "Bearer " ++ API_TOKEN cfg);
                     ("Content-Type", "application/json")];
     req_data := Some (PDict [("port", api_port); ("activate", PBool activate)]);
     req_verify_tls := negb (DISABLE_SSL_VERIFY cfg);
     req_timeout := 10 |}.

(** [control_port]: the result or the exception, and the requests sent. *)
Definition control_port (port : pyval) (activate : bool)
  : outcome pyval * list request :=
  match api_port port with
  | Raise e => (Raise e, [])
  | Ok p =>
      let req := port_control_request p activate in
      (match urlopen rt req with
       | Failure e => Raise e
       | Body text =>
           match json_loads rt text with
           | None => Raise (raised (json_refusal rt text))
           | Some raw_response => offset_response raw_response
           end
       end, [req])
  end.

Definition error_body (msg : string) (execution_time_ms : pyval) : pyval :=
  PDict [("error", PStr msg); ("executionTimeMs", execution_time_ms)].

(** [lambda_handler], "Extract port and activate parameters from event":
    [Ok (Some (port, activate))], or [Ok None] when the body is not JSON
    and the handler returns at once, or an exception; the inner [except]
    catches [JSONDecodeError] only. *)
Definition read_parameters (event : pyval) : outcome (option (pyval * pyval)) :=
  match event with
  | PDict ev =>
      let direct := Ok (Some (py_get "port" ev, py_get "activate" ev)) in
      match dict_get "body" ev with
      | Some b =>
          if truthy b then
            match b with
            | PStr text =>
                match json_loads rt text with
                | None =>
                    match json_refusal rt text with
                    | NotJSON => Ok None          (* except json.JSONDecodeError *)
                    | f => Raise (raised f)
                    end
                | Some (PDict body_data) =>
                    Ok (Some (py_get "port" body_data, py_get "activate" body_data))
                | Some _ => Raise OtherError          (* no attribute get *)
                end
            | _ => Raise OtherError                  (* json.loads of a non-string *)
            end
          else direct
      | None => direct
      end
  | _ => Raise OtherError
  end.

(** [lambda_handler], "Handle port parameter": the port to pass on, or
    the envelope returned at once. *)
Definition normalize_port (port : pyval) (execution_time_ms : pyval)
  : pyval + envelope :=
  match port with
  | PStr s =>
      if String.eqb (PyStr.lower s) "all" then inl (PStr "all")
      else match PyStr.int_of_str s with
           | Some n => inl (PInt n)
           | None =>
               inr (respond 400 (error_body
                      ("FireBreak port must be a number (0-11) or 'all', got: " ++ s)
                      execution_time_ms))
           end
  | _ => inl port
  end.

(** [lambda_handler], the [except] clauses in their order. *)
Definition handle_exception (e : exn) (execution_time_ms : pyval) : envelope :=
  match e with
  | JSONDecodeError =>
      respond 500 (error_body "Invalid JSON response from Goldilock FireBreak API"
                     execution_time_ms)
  | ValueError msg => respond 400 (error_body msg execution_time_ms)
  | HTTPError code reason =>
      respond code (error_body ("Goldilock FireBreak API HTTP error: " ++ reason)
                      execution_time_ms)
  | URLError text =>
      respond 502 (error_body ("Goldilock FireBreak API URL error: " ++ text)
                     execution_time_ms)
  | TimeoutError | OtherError =>
      respond 500 (error_body
                     "Unexpected error occurred while controlling Goldilock FireBreak API"
                     execution_time_ms)
  end.

(** [lambda_handler], "Wrap result with execution time": a list goes
    under [ports], a dict is copied and given the time; anything else is
    not a mapping and cannot be unpacked. *)
Definition wrap_result (result : pyval) (execution_time_ms : pyval)
  : outcome envelope :=
  match result with
  | PList _ =>
      Ok (respond 200 (PDict [("ports", result);
                              ("executionTimeMs", execution_time_ms)]))
  | PDict d =>
      Ok (respond 200 (PDict (dict_set "executionTimeMs" execution_time_ms d)))
  | _ => Raise OtherError
  end.

(** [lambda_handler], the [try] block. *)
Definition try_block (event : pyval) (execution_time_ms : pyval)
  : outcome envelope * list request :=
  match read_parameters event with
  | Raise e => (Raise e, [])
  | Ok None =>
      (Ok (respond 400 (PDict [("error", PStr "Invalid JSON in request body")])), [])
  | Ok (Some (port, activate)) =>
      match port, activate with
      | PNone, _ =>
          (Ok (respond 400 (error_body "Missing required parameter: port"
                              execution_time_ms)), [])
      | _, PNone =>
          (Ok (respond 400 (error_body "Missing required parameter: activate"
                              execution_time_ms)), [])
      | _, _ =>
          match normalize_port port execution_time_ms with
          | inr early => (Ok early, [])
          | inl port =>
              match parse_bool activate with
              | Raise e =>
                  if is_ValueError e then
                    (Ok (respond 400 (error_body
                       "Invalid value for 'activate': expected boolean (true/false) or equivalent"
                       execution_time_ms)), [])
                  else (Raise e, [])
              | Ok activate =>
                  match control_port port activate with
                  | (Raise e, sent) => (Raise e, sent)
                  | (Ok result, sent) => (wrap_result result execution_time_ms, sent)
                  end
              end
          end
      end
  end.

(** [lambda_handler]: the envelope and the requests sent to the device.
    [start_time] and [now] are the readings of the clock on entry and
    when the envelope is built. *)
Definition lambda_handler (event context : pyval) (start_time now : float)
  : envelope * list request :=
  let execution_time_ms := execution_time_ms rt start_time now in
  if String.eqb (API_TOKEN cfg) "" then
    (respond 500 (error_body "API_TOKEN environment variable is missing"
                    execution_time_ms), [])
  else
    match try_block event execution_time_ms with
    | (Ok result, sent) => (result, sent)
    | (Raise e, sent) => (handle_exception e execution_time_ms, sent)
    end.

End Functions.
End port_control.

(** ** lambda_functions/port_status.py *)

Module port_status.
Section Functions.

Variable rt : runtime.
Variable cfg : config.

Definition API_URL : string :=
  "https://" ++ API_IP cfg ++ "/api/websocket/get-all-status".

Definition port_status_request : request :=
  {| req_method := "GET";
     req_url := API_URL;
     req_headers := [("accept", "application/json");
                     ("Authorization", "Bearer " ++ API_TOKEN cfg)];
     req_data := None;
     req_verify_tls := negb (DISABLE_SSL_VERIFY cfg);
     req_timeout := 10 |}.

(** [fetch_port_status] *)
Definition fetch_port_status : outcome pyval * list request :=
  (match urlopen rt port_status_request with
   | Failure e => Raise e
   | Body text =>
       match json_loads rt text with
       | None => Raise (raised (json_refusal rt text))
       | Some raw_data =>
           match raw_data with
           | PList ports_list =>
               if PORT_OFFSET cfg
               then l <- for_each shift_port ports_list ;; Ok (PList l)
               else Ok raw_data
           | _ => Ok raw_data
           end
       end
   end, [port_status_request]).

Definition error_body (msg : string) (execution_time_ms : pyval) : pyval :=
  PDict [("error", PStr msg); ("executionTimeMs", execution_time_ms)].

(** [len(data)], taken for the log line; [None], booleans and numbers
    have no length. *)
Definition has_len (data : pyval) : bool :=
  match data with
  | PStr _ | PList _ | PDict _ => true
  | _ => false
  end.

(** [lambda_handler], the [except] clauses in their order. *)
Definition handle_exception (e : exn) (execution_time_ms : pyval) : envelope :=
  match e with
  | HTTPError code reason =>
      respond code (error_body ("Goldilock FireBreak API HTTP error: " ++ reason)
                      execution_time_ms)
  | URLError text =>
      respond 502 (error_body ("Goldilock FireBreak API URL error: " ++ text)
                     execution_time_ms)
  | JSONDecodeError =>
      respond 500 (error_body "Invalid JSON response from Goldilock FireBreak API"
                     execution_time_ms)
  | ValueError _ | TimeoutError | OtherError =>
      respond 500 (error_body
                     "Unexpected error occurred while querying Goldilock FireBreak API"
                     execution_time_ms)
  end.

(** [lambda_handler], the [try] block. *)
Definition try_block (execution_time_ms : pyval) : outcome envelope * list request :=
  match fetch_port_status with
  | (Raise e, sent) => (Raise e, sent)
  | (Ok data, sent) =>
      if has_len data then
        (Ok (respond 200 (PDict [("ports", data);
                                 ("executionTimeMs", execution_time_ms)])), sent)
      else (Raise OtherError, sent)
  end.

(** [lambda_handler] *)
Definition lambda_handler (event context : pyval) (start_time now : float)
  : envelope * list request :=
  let execution_time_ms := execution_time_ms rt start_time now in
  if String.eqb (API_TOKEN cfg) "" then
    (respond 500 (error_body "API_TOKEN environment variable is missing"
                    execution_time_ms), [])
  else
    match try_block execution_time_ms with
    | (Ok result, sent) => (result, sent)
    | (Raise e, sent) => (handle_exception e execution_time_ms, sent)
    end.

End Functions.
End port_status.

(** ** The host strings of the specification *)

Module HostSpec.

(** The characters of a label: alphanumeric, or a hyphen. *)
Definition label_char (c : ascii) : bool := Regex.alnum c || Ascii.eqb c "-".

Fixpoint last_char (s : string) : option ascii :=
  match s with
  | EmptyString => None
  | String c EmptyString => Some c
  | String _ r => last_char r
  end.

Definition first_char (s : string) : option ascii :=
  match s with
  | EmptyString => None
  | String c _ => Some c
  end.

Definition is_alnum (c : option ascii) : bool :=
  match c with
  | Some c => Regex.alnum c
  | None => false
  end.

(** A label: 1 to 63 characters, alphanumeric with hyphens inside only. *)
Definition dns_label (l : string) : bool :=
  (1 <=? String.length l)%nat && (String.length l <=? 63)%nat
  && PyStr.all_chars label_char l
  && is_alnum (first_char l) && is_alnum (last_char l).

(** A label made of decimal digits only, 1 to 63 of them. *)
Definition digit_label (l : string) : bool :=
  (1 <=? String.length l)%nat && (String.length l <=? 63)%nat
  && PyStr.all_chars PyStr.is_ascii_digit l.

(** The dotted decimal text of four numbers. *)
Definition dotted_quad (a b c d : Z) : string :=
  PyStr.str_of_int a ++ "." ++ PyStr.str_of_int b ++ "."
  ++ PyStr.str_of_int c ++ "." ++ PyStr.str_of_int d.

Definition octet (n : Z) : Prop := 0 <= n <= 255.

(** The hosts the specification calls valid. *)
Inductive valid_host : string -> Prop :=
| host_localhost : valid_host "localhost"
| host_ipv4 (a b c d : Z) :
    octet a -> octet b -> octet c -> octet d ->
    valid_host (dotted_quad a b c d)
| host_dns (l : string) (ls : list string) :
    Forall (fun x => dns_label x = true) (l :: ls) ->
    (String.length (String.concat "." (l :: ls)) <= 253)%nat ->
    valid_host (String.concat "." (l :: ls)).

(** A valid host, alone or followed by [:p] for a port p of 1 to 65535. *)
Inductive valid_endpoint : string -> Prop :=
| endpoint_host (h : string) : valid_host h -> valid_endpoint h
| endpoint_port (h : string) (p : Z) :
    valid_host h -> 1 <= p <= 65535 ->
    valid_endpoint (h ++ ":" ++ PyStr.str_of_int p).

(** The characters of a host: those of a label, and the dot. *)
Definition host_char (c : ascii) : bool := label_char c || Ascii.eqb c ".".

(** What follows the first label of a name: each further label after a dot. *)
Fixpoint dot_tail (ls : list string) : string :=
  match ls with
  | [] => ""
  | l :: r => String "." (l ++ dot_tail r)
  end.

(** [f] holds of the [n] integers from [z] on. *)
Fixpoint all_from (f : Z -> bool) (z : Z) (n : nat) : bool :=
  match n with
  | O => true
  | S n' => f z && all_from f (z + 1) n'
  end.

Fixpoint count_char (ch : ascii) (s : string) : nat :=
  match s with
  | EmptyString => 0
  | String c r => (if Ascii.eqb c ch then 1 else 0) + count_char ch r
  end.

Definition forbidden : list ascii := ["@"; "/"; "\"; "?"; "#"]%char.

(** The strings the specification says are refused. *)
Definition refused (s : string) : Prop :=
  s = ""
  \/ (exists ch, In ch forbidden /\ PyStr.contains_char ch s = true)
  \/ (1 < count_char ":" s)%nat.

End HostSpec.

(** ** Requests, failures and sample surroundings *)

Module Scenario.

(** The port the handler of port_control.py passes on for the [port] of
    a request: the sentinel for any casing of all, the integer a numeric
    string reads as, any other value as it is. *)
Definition normalized (port : pyval) : option pyval :=
  match port with
  | PStr s =>
      if String.eqb (PyStr.lower s) "all" then Some (PStr "all")
      else option_map PInt (PyStr.int_of_str s)
  | _ => Some port
  end.

(** The ports of the active numbering. *)
Definition in_range (cfg : config) (p : Z) : Prop :=
  if PORT_OFFSET cfg then 1 <= p <= 12 else 0 <= p <= 11.



Section Failures.
Variable rt : runtime.
Variable cfg : config.

(** A request with both parameters, and what the handler makes of them
    before it calls [control_port]. *)
Definition carries (event port activate : pyval) : Prop :=
  port_control.read_parameters rt event = Ok (Some (port, activate))
  /\ port <> PNone /\ activate <> PNone.

End Failures.

(** Whether the body of an envelope has the field [executionTimeMs]. *)
Definition has_timing (e : envelope) : bool :=
  match body e with
  | PDict d => match dict_get "executionTimeMs" d with Some _ => true | None => false end
  | _ => false
  end.

(** *** A sample device and configuration *)

Definition quoted (s : string) : string := String "034" (s ++ String "034" "").

(** The text of a status object of the device, [{"port": p, "active": a}]. *)
Definition status_text (p : Z) (a : string) : string :=
  "{" ++ quoted "port" ++ ": " ++ PyStr.str_of_int p ++ ", "
      ++ quoted "active" ++ ": " ++ a ++ "}".

(** A stand-in for [json.loads] that knows the texts the samples use: the
    empty list and the status objects of ports 0 to 11.  Any other text is
    answered as a text that is not JSON is. *)
Definition sample_loads (text : string) : option pyval :=
  if String.eqb text "[]" then Some (PList [])
  else
    let hit p a v :=
      if String.eqb text (status_text p a)
      then Some (PDict [("port", PInt p); ("active", PBool v)]) else None in
    fold_right
      (fun p acc =>
         match hit p "true" true, hit p "false" false with
         | Some v, _ | None, Some v => Some v
         | None, None => acc
         end)
      None (map Z.of_nat (seq 0 12)).

(** A device that answers a request for one port with the status of that
    port, and any other request with the empty list. *)
Definition echo_device (req : request) : response :=
  match req_data req with
  | Some (PDict [("port", PInt p); ("activate", PBool a)]) =>
      Body (status_text p (if a then "true" else "false"))
  | Some (PDict [("port", PBool b); ("activate", PBool a)]) =>
      Body (status_text (if b then 1 else 0) (if a then "true" else "false"))
  | _ => Body "[]"
  end.

(** A device that answers every request with the status of port 0. *)
Definition single_device (req : request) : response :=
  Body (status_text 0 "true").


(** A runtime for the samples; [repr] and [round] are stand-ins, the
    samples do not depend on what they return. *)
Definition sample_runtime (device : request -> response) : runtime :=
  {| json_loads := sample_loads;
     json_refusal := fun _ => NotJSON;
     py_repr := fun _ => "<repr>";
     round2 := fun x => x;
     urlopen := device |}.

Definition sample_config (token : string) (offset : bool) : config :=
  {| API_IP := "10.0.0.5";
     API_TOKEN := token;
     DISABLE_SSL_VERIFY := true;
     PORT_OFFSET := offset |}.

Definition direct_event (port activate : pyval) : pyval :=
  PDict [("port", port); ("activate", activate)].

End Scenario.

(** ** Notions for the behaviour of the functions beyond the claims *)

Module Behaviour.

(** The characters an expression can consume; a lookahead and the end
    anchor consume nothing. *)
Fixpoint eats (r : Regex.regex) (c : ascii) : bool :=
  match r with
  | Regex.Eps | Regex.Look _ | Regex.Dollar => false
  | Regex.Sym p => p c
  | Regex.Cat a b | Regex.Alt a b => eats a c || eats b c
  | Regex.Star a => eats a c
  end.

(** The end of an accepted host: nothing, or one newline. *)
Definition line_end (s : string) : Prop := s = "" \/ s = String "010" "".

(** JSON null, booleans and numbers. *)
Definition is_scalar (v : pyval) : bool :=
  match v with
  | PNone | PBool _ | PInt _ | PFloat _ => true
  | _ => false
  end.



(** The port a request may carry to the device. *)
Definition device_port (cfg : config) (p : pyval) : Prop :=
  p = PStr "all"
  \/ (exists n, p = PInt n /\ 0 <= n <= 11)
  \/ (exists b, p = PBool b /\ PORT_OFFSET cfg = false).

(** *** Samples *)

(** The text of a list of two status objects, and of a list that holds a
    number. *)
Definition two_ports_text : string :=
  "[" ++ Scenario.status_text 0 "true" ++ ", " ++ Scenario.status_text 11 "false" ++ "]".

Definition number_list_text : string := "[5]".

(** A stand-in for [json.loads] that also knows these two texts. *)
Definition list_loads (text : string) : option pyval :=
  if String.eqb text two_ports_text then
    Some (PList [PDict [("port", PInt 0); ("active", PBool true)];
                 PDict [("port", PInt 11); ("active", PBool false)]])
  else if String.eqb text number_list_text then Some (PList [PInt 5])
  else Scenario.sample_loads text.

(** A device that answers every request with the text [text]. *)
Definition constant_device (text : string) (req : request) : response := Body text.

Definition list_runtime (text : string) : runtime :=
  {| json_loads := list_loads;
     json_refusal := fun _ => NotJSON;
     py_repr := fun _ => "<repr>";
     round2 := fun x => x;
     urlopen := constant_device text |}.

(** An environment that sets API_IP and API_TOKEN only. *)
Definition sample_environ (ip : string) (key : string) : option string :=
  if String.eqb key "API_IP" then Some ip
  else if String.eqb key "API_TOKEN" then Some "token"
  else None.




(** An environment that switches certificate checking and physical
    numbering on and sets no token. *)
Definition flag_environ (key : string) : option string :=
  if String.eqb key "API_IP" then Some "10.0.0.5"
  else if String.eqb key "DISABLE_SSL_VERIFY" then Some "False"
  else if String.eqb key "PORT_OFFSET" then Some "TRUE"
  else None.

End Behaviour.

(** ** The status codes of the specification, decided on the inputs *)

Module Mapping.
Import Scenario.
















End Mapping.

Example lower_ALL : PyStr.lower "aLl" = "all".
Proof. reflexivity. Qed.
Example int_of_str_12 : PyStr.int_of_str " 1_2 " = Some 12.
Proof. reflexivity. Qed.
Example str_of_int_ex : PyStr.str_of_int (-1203) = "-1203".
Proof. reflexivity. Qed.
Example dns_999 : Regex.re_match Regex.dns_pattern "999.0.0.1" = true.
Proof. reflexivity. Qed.
Example ipv4_999 : Regex.re_match Regex.ipv4_pattern "999.0.0.1" = false.
Proof. reflexivity. Qed.

(** * Properties *)

(** ** Strings *)

Section StringFacts.

Lemma append_nil_r (s : string) : s ++ "" = s.
Proof. induction s as [|c s IH]; simpl; [reflexivity | now rewrite IH]. Qed.

Lemma append_assoc (a b c : string) : (a ++ b) ++ c = a ++ (b ++ c).
Proof. induction a as [|x a IH]; simpl; [reflexivity | now rewrite IH]. Qed.

Lemma length_append (a b : string) :
  String.length (a ++ b) = (String.length a + String.length b)%nat.
Proof. induction a as [|x a IH]; simpl; [reflexivity | now rewrite IH]. Qed.

Lemma all_chars_append (p : ascii -> bool) (a b : string) :
  PyStr.all_chars p (a ++ b) = PyStr.all_chars p a && PyStr.all_chars p b.
Proof.
  induction a as [|x a IH]; simpl; [reflexivity |].
  now rewrite IH, andb_assoc.
Qed.

Lemma all_chars_weaken (p q : ascii -> bool) (s : string) :
  (forall c, p c = true -> q c = true) ->
  PyStr.all_chars p s = true -> PyStr.all_chars q s = true.
Proof.
  intros Hpq. induction s as [|c s IH]; simpl; [reflexivity |].
  intros H. apply andb_true_iff in H as [Hc Hs].
  now rewrite (Hpq _ Hc), IH.
Qed.

Lemma contains_char_append (ch : ascii) (a b : string) :
  PyStr.contains_char ch (a ++ b)
  = PyStr.contains_char ch a || PyStr.contains_char ch b.
Proof.
  induction a as [|x a IH]; simpl; [reflexivity |].
  now rewrite IH, orb_assoc.
Qed.

(** A string whose characters all satisfy [p] holds no character outside [p]. *)
Lemma all_chars_not_contains (p : ascii -> bool) (ch : ascii) (s : string) :
  p ch = false -> PyStr.all_chars p s = true -> PyStr.contains_char ch s = false.
Proof.
  intros Hch. induction s as [|c s IH]; simpl; [reflexivity |].
  intros H. apply andb_true_iff in H as [Hc Hs].
  rewrite (IH Hs), orb_false_r.
  destruct (Ascii.eqb_spec ch c) as [->|]; [congruence | reflexivity].
Qed.

Lemma split_no_sep (sep : ascii) (s : string) :
  PyStr.contains_char sep s = false -> PyStr.split sep s = [s].
Proof.
  induction s as [|c s IH]; simpl; [reflexivity |].
  intros H. apply orb_false_iff in H as [Hc Hs].
  rewrite Ascii.eqb_sym, Hc, (IH Hs). reflexivity.
Qed.

Lemma split_append_sep (sep : ascii) (a b : string) :
  PyStr.contains_char sep a = false ->
  PyStr.split sep (a ++ String sep b) = a :: PyStr.split sep b.
Proof.
  induction a as [|c a IH]; simpl.
  - intros _. now rewrite Ascii.eqb_refl.
  - intros H. apply orb_false_iff in H as [Hc Hs].
    rewrite Ascii.eqb_sym, Hc, (IH Hs). reflexivity.
Qed.

Lemma split_length (sep : ascii) (s : string) :
  length (PyStr.split sep s) = S (HostSpec.count_char sep s).
Proof.
  induction s as [|c s IH]; simpl; [reflexivity |].
  destruct (Ascii.eqb c sep); simpl.
  - now rewrite IH.
  - destruct (PyStr.split sep s) as [|x xs]; simpl in *; [discriminate | assumption].
Qed.

(** Checking a property on z, z+1, ..., z+n-1 proves it on that range. *)
Lemma all_from_spec (f : Z -> bool) (n : nat) :
  forall z, HostSpec.all_from f z n = true ->
  forall x, z <= x < z + Z.of_nat n -> f x = true.
Proof.
  induction n as [|n IH]; intros z H x Hx; [lia |].
  simpl in H. apply andb_true_iff in H as [Hz Hr].
  destruct (Z.eq_dec x z) as [->|Hne]; [assumption |].
  apply (IH (z + 1) Hr). lia.
Qed.

End StringFacts.

(** ** The matcher *)

Section RegexFacts.
Import Regex.

Lemma star_loop_mono ma : mono ma ->
  forall n m s k1 k2, (n <= m)%nat -> cont_le k1 k2 ->
    star_loop ma k1 n s = true -> star_loop ma k2 m s = true.
Proof.
  intros Hma n. induction n as [|n IH]; intros m s k1 k2 Hnm Hk; simpl.
  - destruct (k1 s) eqn:E; [|discriminate]. intros _.
    destruct m; simpl; now rewrite (Hk _ E).
  - destruct (k1 s) eqn:E.
    + intros _. destruct m; simpl; now rewrite (Hk _ E).
    + intros H. destruct m as [|m]; [lia |]. simpl.
      destruct (k2 s); [reflexivity |].
      revert H. apply Hma. intros s' Hs'.
      destruct (String.length s' <? String.length s)%nat; [|discriminate].
      revert Hs'. apply IH; [lia | assumption].
Qed.

Lemma run_mono (r : regex) : mono (run r).
Proof.
  induction r as [|p|a IHa b IHb|a IHa b IHb|a IHa|a IHa|];
    intros s k1 k2 Hk; simpl.
  - apply Hk.
  - destruct s as [|c s]; [discriminate |]. destruct (p c); [apply Hk | discriminate].
  - apply IHa. intros s'. now apply IHb.
  - destruct (run a s k1) eqn:E.
    + now rewrite (IHa _ _ _ Hk E).
    + intros H. rewrite (IHb _ _ _ Hk H). now destruct (run a s k2).
  - now apply star_loop_mono.
  - destruct (run a s (fun _ => true)); [apply Hk | discriminate].
  - destruct (at_dollar s); [apply Hk | discriminate].
Qed.

Lemma consumes_eps : consumes Eps "".
Proof. intros rest k H. exact H. Qed.

Lemma consumes_sym (p : ascii -> bool) (c : ascii) :
  p c = true -> consumes (Sym p) (String c "").
Proof. intros Hc rest k H. simpl. now rewrite Hc. Qed.

Lemma consumes_cat (a b : regex) (u v : string) :
  consumes a u -> consumes b v -> consumes (Cat a b) (u ++ v).
Proof.
  intros Ha Hb rest k H. simpl. rewrite append_assoc.
  apply Ha. now apply Hb.
Qed.

Lemma consumes_alt_l (a b : regex) (w : string) :
  consumes a w -> consumes (Alt a b) w.
Proof. intros Ha rest k H. simpl. now rewrite (Ha _ _ H). Qed.

Lemma consumes_alt_r (a b : regex) (w : string) :
  consumes b w -> consumes (Alt a b) w.
Proof.
  intros Hb rest k H. simpl. rewrite (Hb _ _ H).
  now destruct (run a (w ++ rest) k).
Qed.

Lemma consumes_opt_some (a : regex) (w : string) :
  consumes a w -> consumes (Opt a) w.
Proof. apply consumes_alt_l. Qed.

Lemma consumes_opt_none (a : regex) : consumes (Opt a) "".
Proof. apply consumes_alt_r, consumes_eps. Qed.

Lemma consumes_star_nil (a : regex) : consumes (Star a) "".
Proof.
  intros rest k H. simpl.
  destruct (String.length rest); simpl; now rewrite H.
Qed.

Lemma consumes_star_cons (a : regex) (u v : string) :
  consumes a u -> u <> "" -> consumes (Star a) v -> consumes (Star a) (u ++ v).
Proof.
  intros Ha Hu Hv rest k H. simpl.
  assert (Hlen : (String.length (v ++ rest) < String.length ((u ++ v) ++ rest))%nat).
  { rewrite append_assoc, (length_append u).
    destruct u; [congruence | simpl; lia]. }
  destruct (String.length ((u ++ v) ++ rest)) as [|n] eqn:En; [lia |].
  simpl. destruct (k ((u ++ v) ++ rest)); [reflexivity |].
  rewrite append_assoc. apply Ha.
  rewrite <- append_assoc, En.
  assert (Hlt : (String.length (v ++ rest) <? S n)%nat = true)
    by (apply Nat.ltb_lt; exact Hlen).
  rewrite Hlt.
  apply (star_loop_mono (run a) (run_mono a) (String.length (v ++ rest)) n _ k k).
  - lia.
  - intros x Hx; exact Hx.
  - apply (Hv rest k H).
Qed.

(** [a{n}] consumes [n] characters of the class. *)
Lemma consumes_times (p : ascii -> bool) (w : string) :
  PyStr.all_chars p w = true -> consumes (times (String.length w) (Sym p)) w.
Proof.
  induction w as [|c w IH]; simpl; intros H.
  - apply consumes_eps.
  - apply andb_true_iff in H as [Hc Hw].
    apply (consumes_cat _ _ (String c "") w); [now apply consumes_sym | now apply IH].
Qed.

(** [a{0,n}] consumes up to [n] characters of the class. *)
Lemma consumes_upto (p : ascii -> bool) (n : nat) (w : string) :
  PyStr.all_chars p w = true -> (String.length w <= n)%nat ->
  consumes (upto n (Sym p)) w.
Proof.
  revert w. induction n as [|n IH]; intros [|c w]; simpl; intros H Hlen.
  - apply consumes_eps.
  - lia.
  - apply consumes_opt_none.
  - apply andb_true_iff in H as [Hc Hw].
    apply consumes_opt_some.
    apply (consumes_cat _ _ (String c "") w); [now apply consumes_sym |].
    apply IH; [assumption | lia].
Qed.

End RegexFacts.

(** ** The patterns accept the hosts of the specification *)

Section PatternFacts.
Import Regex HostSpec.

Lemma star_loop_split (a : regex) (k0 : string -> bool) :
  (forall s k, run a s k = true ->
     exists w1 w2, s = w1 ++ w2 /\ k w2 = true /\ consumes a w1) ->
  forall n s, star_loop (run a) k0 n s = true ->
    exists w1 w2, s = w1 ++ w2 /\ k0 w2 = true /\ consumes (Star a) w1.
Proof.
  intros IHa n. induction n as [|n IH]; intros s; simpl.
  - destruct (k0 s) eqn:E; [|discriminate]. intros _.
    exists "", s. repeat split; [assumption | apply consumes_star_nil].
  - destruct (k0 s) eqn:E.
    + intros _. exists "", s. repeat split; [assumption | apply consumes_star_nil].
    + intros H. apply IHa in H as (u & w & -> & Hk & Hu).
      destruct (String.length w <? String.length (u ++ w))%nat eqn:Hlt; [|discriminate].
      apply IH in Hk as (v & w2 & -> & Hk & Hv).
      exists (u ++ v), w2. rewrite append_assoc. repeat split; [assumption |].
      apply consumes_star_cons; [assumption | | assumption].
      intros ->. simpl in Hlt. apply Nat.ltb_lt in Hlt. lia.
Qed.

(** A match of a plain expression splits the string into what it consumed
    and what the continuation accepted. *)
Lemma run_split (r : regex) : plain r = true ->
  forall s k, run r s k = true ->
    exists w1 w2, s = w1 ++ w2 /\ k w2 = true /\ consumes r w1.
Proof.
  induction r as [|p|a IHa b IHb|a IHa b IHb|a IHa|a IHa|]; simpl; intros Hp s k H;
    try discriminate.
  - exists "", s. repeat split; [assumption | apply consumes_eps].
  - destruct s as [|c s]; [discriminate |]. destruct (p c) eqn:Hc; [|discriminate].
    exists (String c ""), s. repeat split; [assumption | now apply consumes_sym].
  - apply andb_true_iff in Hp as [Hpa Hpb].
    apply (IHa Hpa) in H as (u & w & -> & Hb & Hu).
    apply (IHb Hpb) in Hb as (v & w2 & -> & Hk & Hv).
    exists (u ++ v), w2. rewrite append_assoc. repeat split; [assumption |].
    now apply consumes_cat.
  - apply andb_true_iff in Hp as [Hpa Hpb].
    destruct (run a s k) eqn:E.
    + apply (IHa Hpa) in E as (u & w & -> & Hk & Hu).
      exists u, w. repeat split; [assumption | now apply consumes_alt_l].
    + apply (IHb Hpb) in H as (u & w & -> & Hk & Hu).
      exists u, w. repeat split; [assumption | now apply consumes_alt_r].
  - revert H. apply star_loop_split. intros s' k'. now apply IHa.
Qed.

(** What the matcher accepts as a whole string is consumed in any context. *)
Lemma run_exact (r : regex) (w : string) :
  plain r = true -> run r w (fun s => String.eqb s "") = true -> consumes r w.
Proof.
  intros Hp H. apply (run_split r Hp) in H as (u & v & -> & Hv & Hu).
  apply String.eqb_eq in Hv. subst v. now rewrite append_nil_r.
Qed.

Lemma match_to_dollar (a : regex) (w : string) (k : string -> bool) :
  consumes a w -> k "" = true -> run (Cat a Dollar) w k = true.
Proof.
  intros Ha Hk. simpl. rewrite <- (append_nil_r w). apply Ha. simpl. exact Hk.
Qed.

(** The text of every number from 0 to 255 is an octet of the pattern, and
    is made of digits. *)
Lemma octet_text (n : Z) : HostSpec.octet n ->
  consumes Regex.octet (PyStr.str_of_int n)
  /\ PyStr.all_chars PyStr.is_ascii_digit (PyStr.str_of_int n) = true.
Proof.
  intros Hn.
  pose (f := fun z => run Regex.octet (PyStr.str_of_int z) (fun s => String.eqb s "")
                     && PyStr.all_chars PyStr.is_ascii_digit (PyStr.str_of_int z)).
  assert (H : f n = true).
  { apply (all_from_spec f (Z.to_nat 256) 0); [vm_compute; reflexivity |].
    unfold HostSpec.octet in Hn. rewrite Z2Nat.id; lia. }
  apply andb_true_iff in H as [H1 H2]. split; [|assumption].
  apply run_exact; [reflexivity | assumption].
Qed.

(** The text of every port from 1 to 65535 is made of digits and reads
    back as the port. *)
Lemma port_text (p : Z) : 1 <= p <= 65535 ->
  PyStr.all_chars PyStr.is_ascii_digit (PyStr.str_of_int p) = true
  /\ PyStr.isdigit (PyStr.str_of_int p) = true
  /\ PyStr.int_of_str (PyStr.str_of_int p) = Some p.
Proof.
  intros Hp.
  pose (f := fun z => PyStr.all_chars PyStr.is_ascii_digit (PyStr.str_of_int z)
                     && PyStr.isdigit (PyStr.str_of_int z)
                     && match PyStr.int_of_str (PyStr.str_of_int z) with
                        | Some q => q =? z
                        | None => false
                        end).
  assert (H : f p = true).
  { apply (all_from_spec f (Z.to_nat 65536) 0); [vm_compute; reflexivity |].
    rewrite Z2Nat.id; lia. }
  apply andb_true_iff in H as [H H3]. apply andb_true_iff in H as [H1 H2].
  repeat split; try assumption.
  destruct (PyStr.int_of_str (PyStr.str_of_int p)) as [q|]; [|discriminate].
  apply Z.eqb_eq in H3. now subst.
Qed.

End PatternFacts.

(** ** validate_api_ip *)

Section ValidateFacts.
Import Regex HostSpec.

Local Arguments re_match : simpl never.
Local Arguments PyStr.split : simpl never.

Ltac by_bits c :=
  destruct c as [[] [] [] [] [] [] [] []]; vm_compute; intros; congruence.

Lemma digit_is_alnum (c : ascii) : PyStr.is_ascii_digit c = true -> alnum c = true.
Proof. by_bits c. Qed.

Lemma alnum_is_label_char (c : ascii) : alnum c = true -> label_char c = true.
Proof. unfold label_char. now intros ->. Qed.

Lemma label_char_is_host_char (c : ascii) : label_char c = true -> host_char c = true.
Proof. unfold host_char. now intros ->. Qed.

Lemma digit_is_host_char (c : ascii) : PyStr.is_ascii_digit c = true -> host_char c = true.
Proof. intros H. now apply label_char_is_host_char, alnum_is_label_char, digit_is_alnum. Qed.

Lemma host_char_is_dot_class (c : ascii) :
  host_char c = true -> negb (Ascii.eqb c "010") = true.
Proof. by_bits c. Qed.

Lemma digit_is_isdigit_char (c : ascii) :
  PyStr.is_ascii_digit c = true -> PyStr.isdigit_char c = true.
Proof. unfold PyStr.isdigit_char. now intros ->. Qed.

(** ** Labels and names *)

Lemma last_char_snoc (s : string) (c : ascii) :
  last_char (s ++ String c "") = Some c.
Proof.
  induction s as [|x s IH]; simpl; [reflexivity |].
  rewrite IH. destruct s; reflexivity.
Qed.

Lemma string_snoc (s : string) :
  s <> "" -> exists m d, s = m ++ String d "".
Proof.
  induction s as [|c s IH]; [congruence |]. intros _.
  destruct s as [|c' s'].
  - exists "", c. reflexivity.
  - destruct IH as (m & d & E); [discriminate |].
    exists (String c m), d. simpl. now rewrite E.
Qed.

(** A label of the specification is consumed by the label of the pattern. *)
Lemma label_consumes (l : string) : dns_label l = true -> consumes label l.
Proof.
  unfold dns_label. intros H.
  apply andb_true_iff in H as [H Hlast]. apply andb_true_iff in H as [H Hfirst].
  apply andb_true_iff in H as [H Hall]. apply andb_true_iff in H as [_ Hlen].
  destruct l as [|c r]; [discriminate |].
  cbn [first_char is_alnum] in Hfirst.
  cbn [PyStr.all_chars] in Hall. apply andb_true_iff in Hall as [_ Hr].
  unfold label. apply (consumes_cat Alnum _ (String c "") r); [now apply consumes_sym |].
  destruct (string_dec r "") as [->|Hne]; [apply consumes_opt_none |].
  destruct (string_snoc r Hne) as (m & d & ->).
  apply consumes_opt_some.
  rewrite all_chars_append in Hr. apply andb_true_iff in Hr as [Hm _].
  assert (Hd : alnum d = true).
  { change (String c (m ++ String d "")) with (String c m ++ String d "") in Hlast.
    rewrite last_char_snoc in Hlast. exact Hlast. }
  apply Nat.leb_le in Hlen. cbn [String.length] in Hlen.
  rewrite length_append in Hlen. cbn [String.length] in Hlen.
  apply consumes_cat; [|now apply consumes_sym].
  unfold Rep. apply (consumes_cat _ _ "" m); [apply consumes_eps |].
  apply consumes_upto; [exact Hm | lia].
Qed.

Lemma label_chars (l : string) :
  dns_label l = true -> PyStr.all_chars host_char l = true /\ l <> "".
Proof.
  unfold dns_label. intros H.
  apply andb_true_iff in H as [H _]. apply andb_true_iff in H as [H _].
  apply andb_true_iff in H as [H Hall]. apply andb_true_iff in H as [Hlen _].
  split.
  - eapply all_chars_weaken; [apply label_char_is_host_char | exact Hall].
  - intros ->. discriminate.
Qed.

Lemma concat_dot (l : string) (ls : list string) :
  String.concat "." (l :: ls) = l ++ dot_tail ls.
Proof.
  revert l. induction ls as [|x ls IH]; intros l.
  - simpl. now rewrite append_nil_r.
  - change (String.concat "." (l :: x :: ls))
      with (l ++ "." ++ String.concat "." (x :: ls)).
    now rewrite IH.
Qed.

Lemma dot_tail_consumes (ls : list string) :
  Forall (fun x => dns_label x = true) ls ->
  consumes (Star (Cat (Lit ".") label)) (dot_tail ls)
  /\ PyStr.all_chars host_char (dot_tail ls) = true.
Proof.
  induction 1 as [|l ls Hl _ [IH1 IH2]]; simpl.
  - split; [apply consumes_star_nil | reflexivity].
  - destruct (label_chars l Hl) as [Hc _]. split.
    + change (String "." (l ++ dot_tail ls)) with (("." ++ l) ++ dot_tail ls).
      apply consumes_star_cons; [| discriminate | assumption].
      apply consumes_cat; [apply consumes_sym; reflexivity | now apply label_consumes].
    + now rewrite all_chars_append, Hc, IH2.
Qed.

(** The name pattern matches a host made of host characters that is the
    right length and that the label sequence consumes. *)
Lemma dns_pattern_matches (h : string) :
  h <> "" -> (String.length h <= 253)%nat ->
  PyStr.all_chars host_char h = true ->
  consumes (Cat label (Star (Cat (Lit ".") label))) h ->
  re_match dns_pattern h = true.
Proof.
  intros Hne Hlen Hch Hlab. unfold re_match, dns_pattern.
  change (run (Cat (Look ?a) ?b) h ?k)
    with (if run a h (fun _ => true) then run b h k else false).
  assert (Hdots : consumes (Rep 1 253 Dot) h).
  { destruct h as [|c r]; [congruence |]. simpl in Hch, Hlen.
    apply andb_true_iff in Hch as [Hc Hr].
    unfold Rep. apply (consumes_cat _ _ (String c "") r).
    - apply (consumes_cat _ _ (String c "") ""); [|apply consumes_eps].
      apply consumes_sym. now apply host_char_is_dot_class.
    - apply consumes_upto; [|lia].
      eapply all_chars_weaken; [apply host_char_is_dot_class | exact Hr]. }
  rewrite (match_to_dollar _ h _ Hdots eq_refl).
  now apply match_to_dollar.
Qed.

Lemma dns_name_matches (l : string) (ls : list string) :
  Forall (fun x => dns_label x = true) (l :: ls) ->
  (String.length (String.concat "." (l :: ls)) <= 253)%nat ->
  re_match dns_pattern (String.concat "." (l :: ls)) = true
  /\ PyStr.all_chars host_char (String.concat "." (l :: ls)) = true
  /\ String.concat "." (l :: ls) <> "".
Proof.
  intros Hall Hlen. inversion Hall as [|? ? Hl Hls]; subst.
  destruct (dot_tail_consumes ls Hls) as [Ht Htc].
  destruct (label_chars l Hl) as [Hlc Hlne].
  rewrite concat_dot in *.
  assert (Hch : PyStr.all_chars host_char (l ++ dot_tail ls) = true)
    by now rewrite all_chars_append, Hlc, Htc.
  assert (Hne : l ++ dot_tail ls <> "") by (destruct l; [congruence | discriminate]).
  repeat split; try assumption.
  apply dns_pattern_matches; try assumption.
  apply consumes_cat; [now apply label_consumes | assumption].
Qed.

Lemma ipv4_matches (a b c d : Z) :
  octet a -> octet b -> octet c -> octet d ->
  re_match ipv4_pattern (dotted_quad a b c d) = true
  /\ PyStr.all_chars host_char (dotted_quad a b c d) = true
  /\ dotted_quad a b c d <> "".
Proof.
  intros Ha Hb Hc Hd.
  destruct (octet_text a Ha) as [Ma Da], (octet_text b Hb) as [Mb Db],
           (octet_text c Hc) as [Mc Dc], (octet_text d Hd) as [Md Dd].
  assert (E : dotted_quad a b c d
              = ((PyStr.str_of_int a ++ ".") ++ (PyStr.str_of_int b ++ ".")
                 ++ (PyStr.str_of_int c ++ ".") ++ "") ++ PyStr.str_of_int d).
  { unfold dotted_quad. now rewrite !append_assoc. }
  assert (Hdot : consumes (Lit ".") ".") by (apply consumes_sym; reflexivity).
  repeat split.
  - rewrite E. unfold re_match, ipv4_pattern.
    change (run (Cat ?x (Cat ?y Dollar)) ?s ?k) with (run (Cat (Cat x y) Dollar) s k).
    apply match_to_dollar; [|reflexivity].
    apply consumes_cat; [|assumption].
    repeat (apply consumes_cat; [now apply consumes_cat |]).
    apply consumes_eps.
  - unfold dotted_quad. rewrite !all_chars_append. simpl.
    rewrite (all_chars_weaken _ _ _ digit_is_host_char Da),
            (all_chars_weaken _ _ _ digit_is_host_char Db),
            (all_chars_weaken _ _ _ digit_is_host_char Dc),
            (all_chars_weaken _ _ _ digit_is_host_char Dd).
    reflexivity.
  - unfold dotted_quad. destruct (PyStr.str_of_int a); discriminate.
Qed.

End ValidateFacts.

Section ValidateTheorems.
Import Regex HostSpec.

Local Arguments re_match : simpl never.
Local Arguments PyStr.split : simpl never.

Lemma valid_host_facts (h : string) : valid_host h ->
  h <> "" /\ PyStr.all_chars host_char h = true
  /\ (String.eqb h "localhost" || re_match ipv4_pattern h || re_match dns_pattern h) = true.
Proof.
  intros [|a b c d Ha Hb Hc Hd|l ls Hall Hlen].
  - split; [discriminate | split; reflexivity].
  - destruct (ipv4_matches a b c d Ha Hb Hc Hd) as (M & C & N).
    repeat split; try assumption. rewrite M. now rewrite orb_true_r.
  - destruct (dns_name_matches l ls Hall Hlen) as (M & C & N).
    repeat split; try assumption. rewrite M. now rewrite orb_true_r.
Qed.

Lemma no_forbidden (s : string) :
  PyStr.all_chars host_char s = true ->
  existsb (fun ch => PyStr.contains_char ch s) forbidden = false
  /\ PyStr.contains_char ":" s = false.
Proof.
  intros H. unfold forbidden. cbn [existsb].
  rewrite !(all_chars_not_contains host_char _ s) by (reflexivity || exact H).
  split; reflexivity.
Qed.

(** A valid host without a port is accepted. *)
Lemma validate_accepts_host (h : string) : valid_host h -> validate_api_ip h = true.
Proof.
  intros Hv. destruct (valid_host_facts h Hv) as (Hne & Hch & Hok).
  destruct (no_forbidden h Hch) as [Hf Hc].
  unfold validate_api_ip. fold forbidden.
  apply String.eqb_neq in Hne. rewrite Hne, Hf.
  rewrite (split_no_sep _ _ Hc). cbn [length Nat.ltb Nat.leb Nat.eqb nth negb].
  rewrite Hok. reflexivity.
Qed.

(** A valid host followed by a port of 1 to 65535 is accepted. *)
Lemma validate_accepts_port (h : string) (p : Z) :
  valid_host h -> 1 <= p <= 65535 ->
  validate_api_ip (h ++ ":" ++ PyStr.str_of_int p) = true.
Proof.
  intros Hv Hp. destruct (valid_host_facts h Hv) as (Hne & Hch & Hok).
  destruct (port_text p Hp) as (Hd & Hisd & Hint).
  assert (Hpc : PyStr.all_chars host_char (PyStr.str_of_int p) = true)
    by (eapply all_chars_weaken; [apply digit_is_host_char | exact Hd]).
  destruct (no_forbidden h Hch) as [Hf Hc].
  destruct (no_forbidden _ Hpc) as [Hpf Hpcol].
  unfold validate_api_ip. fold forbidden.
  assert (E : String.eqb (h ++ ":" ++ PyStr.str_of_int p) "" = false)
    by (apply String.eqb_neq; destruct h; [congruence | discriminate]).
  rewrite E.
  assert (F : existsb (fun ch => PyStr.contains_char ch (h ++ ":" ++ PyStr.str_of_int p))
                forbidden = false).
  { unfold forbidden in *. cbn [existsb] in *.
    rewrite !contains_char_append.
    repeat (apply orb_false_iff in Hf as [? Hf]).
    repeat (apply orb_false_iff in Hpf as [? Hpf]).
    cbn [PyStr.contains_char append].
    repeat match goal with H : PyStr.contains_char _ _ = false |- _ => rewrite H; clear H end.
    reflexivity. }
  rewrite F.
  change (h ++ ":" ++ PyStr.str_of_int p) with (h ++ String ":" (PyStr.str_of_int p)).
  rewrite (split_append_sep _ _ _ Hc), (split_no_sep _ _ Hpcol).
  cbn [length Nat.ltb Nat.leb Nat.eqb nth negb].
  rewrite Hok, Hisd, Hint. cbn [negb].
  replace (p <? 1) with false by (symmetry; apply Z.ltb_ge; lia).
  replace (p >? 65535) with false by (symmetry; rewrite Z.gtb_ltb; apply Z.ltb_ge; lia).
  reflexivity.
Qed.

(** The strings the specification says are refused are refused. *)
Lemma validate_refuses (s : string) : refused s -> validate_api_ip s = false.
Proof.
  intros [->|[(ch & Hin & Hch)|Hcount]]; [reflexivity | |];
    unfold validate_api_ip; fold forbidden;
    destruct (String.eqb s ""); try reflexivity.
  - assert (E : existsb (fun c => PyStr.contains_char c s) forbidden = true)
      by (apply existsb_exists; now exists ch).
    now rewrite E.
  - destruct (existsb _ forbidden); [reflexivity |].
    cbv zeta. rewrite split_length.
    replace (2 <? S (count_char ":" s))%nat with true
      by (symmetry; apply Nat.ltb_lt; lia).
    reflexivity.
Qed.

(** C2: validate_api_ip accepts localhost, every dotted quad of octets 0-255
    and every name of 1-63 character labels that is at most 253 characters
    long, each alone or followed by a port of 1 to 65535; it refuses the
    empty string, every string holding one of the characters at-sign, slash,
    backslash, question mark or hash, and every string with more than one
    colon. *)
Theorem validate_api_ip_spec :
  (forall s, valid_endpoint s -> validate_api_ip s = true)
  /\ (forall s, refused s -> validate_api_ip s = false).
Proof.
  split.
  - intros s [h Hv|h p Hv Hp];
      [now apply validate_accepts_host | now apply validate_accepts_port].
  - apply validate_refuses.
Qed.

Lemma validate_api_ip_spec_witness :
  validate_api_ip "firebreak-7.example.com:8443" = true
  /\ validate_api_ip "1.2.3.4@evil.com" = false.
Proof.
  split.
  - apply (proj1 validate_api_ip_spec).
    apply (endpoint_port "firebreak-7.example.com" 8443); [|lia].
    apply (host_dns "firebreak-7" ["example"; "com"]).
    + repeat constructor.
    + vm_compute. lia.
  - apply (proj2 validate_api_ip_spec).
    right; left. exists "@"%char. split; [left; reflexivity | reflexivity].
Defined.

Lemma digit_label_is_label (l : string) : digit_label l = true -> dns_label l = true.
Proof.
  unfold digit_label, dns_label. intros H.
  apply andb_true_iff in H as [H Hall]. apply andb_true_iff in H as [H1 H2].
  rewrite H1, H2. cbn [andb].
  rewrite (all_chars_weaken _ label_char _
             (fun c Hc => alnum_is_label_char c (digit_is_alnum c Hc)) Hall).
  cbn [andb].
  destruct l as [|c r]; [discriminate |].
  cbn [PyStr.all_chars] in Hall. apply andb_true_iff in Hall as [Hc Hr].
  cbn [first_char is_alnum]. rewrite (digit_is_alnum c Hc). cbn [andb].
  destruct (string_dec r "") as [->|Hne]; [now apply digit_is_alnum |].
  destruct (string_snoc r Hne) as (m & d & ->).
  change (String c (m ++ String d "")) with (String c m ++ String d "").
  rewrite last_char_snoc. cbn [is_alnum].
  rewrite all_chars_append in Hr. apply andb_true_iff in Hr as [_ Hd].
  cbn [PyStr.all_chars] in Hd. rewrite andb_true_r in Hd. now apply digit_is_alnum.
Qed.

(** C9: hosts that fail the IPv4 pattern are still accepted: 999.0.0.1 does
    not match the IPv4 pattern and validate_api_ip returns true on it, as it
    does on every dotted string of all-digit labels of 1-63 characters with
    a total length of at most 253. *)
Theorem digit_labels_accepted :
  (re_match ipv4_pattern "999.0.0.1" = false /\ validate_api_ip "999.0.0.1" = true)
  /\ (forall l ls,
        Forall (fun x => digit_label x = true) (l :: ls) ->
        (String.length (String.concat "." (l :: ls)) <= 253)%nat ->
        validate_api_ip (String.concat "." (l :: ls)) = true).
Proof.
  split; [split; vm_compute; reflexivity |].
  intros l ls Hall Hlen. apply validate_accepts_host, host_dns; [|assumption].
  eapply Forall_impl; [|exact Hall]. apply digit_label_is_label.
Qed.

Lemma digit_labels_accepted_witness :
  validate_api_ip "256.300.1.1234567" = true.
Proof.
  apply (proj2 digit_labels_accepted "256" ["300"; "1"; "1234567"]).
  - repeat constructor.
  - vm_compute. lia.
Defined.

End ValidateTheorems.

(** ** Dicts *)

Section DictFacts.

Lemma dict_get_set_same (key : string) (v : pyval) (d : dict) :
  dict_get key (dict_set key v d) = Some v.
Proof.
  induction d as [|[k w] d IH]; simpl.
  - now rewrite String.eqb_refl.
  - destruct (String.eqb k key) eqn:E; simpl; now rewrite E.
Qed.

Lemma dict_get_set_other (key k : string) (v : pyval) (d : dict) :
  k <> key -> dict_get k (dict_set key v d) = dict_get k d.
Proof.
  intros Hne. induction d as [|[k' w] d IH]; simpl.
  - rewrite String.eqb_sym. apply String.eqb_neq in Hne. now rewrite Hne.
  - destruct (String.eqb k' key) eqn:E; simpl.
    + apply String.eqb_eq in E. subst k'.
      apply not_eq_sym in Hne. apply String.eqb_neq in Hne. now rewrite Hne.
    + now rewrite IH.
Qed.

Lemma existsb_eqb_In (v : string) (l : list string) :
  existsb (String.eqb v) l = true <-> In v l.
Proof.
  rewrite existsb_exists. split.
  - intros (x & Hin & E). apply String.eqb_eq in E. now subst.
  - intros Hin. exists v. split; [assumption | apply String.eqb_refl].
Qed.

End DictFacts.

(** ** parse_bool *)

Section ParseBool.

(** C5: parse_bool returns a boolean unchanged; on an integer it gives
    False for 0, True for 1 and fails otherwise; on a string it strips and
    lower-cases, gives True exactly for true, 1, yes, y, on, False exactly
    for false, 0, no, n, off, and fails otherwise; it fails on every value
    of another type. *)
Theorem parse_bool_spec (rt : runtime) :
  (forall b, port_control.parse_bool rt (PBool b) = Ok b)
  /\ (forall v b, port_control.parse_bool rt v = Ok b ->
                  port_control.parse_bool rt (PBool b) = port_control.parse_bool rt v)
  /\ (forall n,
        (n = 0 -> port_control.parse_bool rt (PInt n) = Ok false)
        /\ (n = 1 -> port_control.parse_bool rt (PInt n) = Ok true)
        /\ (n <> 0 -> n <> 1 ->
            exists msg, port_control.parse_bool rt (PInt n) = Raise (ValueError msg)))
  /\ (forall s,
        let v := PyStr.lower (PyStr.strip s) in
        (port_control.parse_bool rt (PStr s) = Ok true
         <-> In v ["true"; "1"; "yes"; "y"; "on"])
        /\ (port_control.parse_bool rt (PStr s) = Ok false
            <-> In v ["false"; "0"; "no"; "n"; "off"])
        /\ (~ In v ["true"; "1"; "yes"; "y"; "on"; "false"; "0"; "no"; "n"; "off"] ->
            exists msg, port_control.parse_bool rt (PStr s) = Raise (ValueError msg)))
  /\ (forall v,
        match v with
        | PBool _ | PInt _ | PStr _ => True
        | _ => exists msg, port_control.parse_bool rt v = Raise (ValueError msg)
        end).
Proof.
  split; [reflexivity |].
  split; [intros v b H; simpl; now rewrite H |].
  split.
  { intros n. repeat split.
    - now intros ->.
    - now intros ->.
    - intros H0 H1. simpl.
      apply Z.eqb_neq in H0, H1. rewrite H0, H1. simpl. eauto. }
  split.
  { intros s v. unfold port_control.parse_bool. fold v.
    destruct (existsb (String.eqb v) ["true"; "1"; "yes"; "y"; "on"]) eqn:Et.
    - pose proof (proj1 (existsb_eqb_In _ _) Et) as Hin.
      repeat split; try tauto; try discriminate.
      + intros Hf. exfalso. simpl in Hin, Hf.
        repeat (destruct Hin as [<-|Hin]; [intuition discriminate |]). exact Hin.
      + intros Hn. exfalso. apply Hn.
        apply in_or_app with (l := ["true"; "1"; "yes"; "y"; "on"]). now left.
    - assert (Hnt : ~ In v ["true"; "1"; "yes"; "y"; "on"]).
      { intros Hin. apply existsb_eqb_In in Hin. congruence. }
      destruct (existsb (String.eqb v) ["false"; "0"; "no"; "n"; "off"]) eqn:Ef.
      + pose proof (proj1 (existsb_eqb_In _ _) Ef) as Hin.
        repeat split; try tauto; try discriminate.
        intros Hn. exfalso. apply Hn.
        apply in_or_app with (l := ["true"; "1"; "yes"; "y"; "on"]). now right.
      + assert (Hnf : ~ In v ["false"; "0"; "no"; "n"; "off"]).
        { intros Hin. apply existsb_eqb_In in Hin. congruence. }
        repeat split; try tauto; try discriminate. eauto. }
  intros [| | | | | |]; simpl; eauto.
Qed.

Lemma parse_bool_spec_witness :
  port_control.parse_bool (Scenario.sample_runtime Scenario.echo_device) (PStr " YES ")
  = Ok true
  /\ exists msg,
       port_control.parse_bool (Scenario.sample_runtime Scenario.echo_device) (PInt 2)
       = Raise (ValueError msg).
Proof.
  pose proof (parse_bool_spec (Scenario.sample_runtime Scenario.echo_device))
    as (_ & _ & Hint & Hstr & _).
  split.
  - apply (proj1 (Hstr " YES ")). vm_compute. tauto.
  - apply (proj2 (proj2 (Hint 2))); lia.
Defined.

End ParseBool.

(** ** The port control handler, step by step *)

Section ControlSteps.
Import Scenario.

Variable rt : runtime.
Variable cfg : config.

Lemma normalized_some (port port' t : pyval) :
  normalized port = Some port' -> port_control.normalize_port port t = inl port'.
Proof.
  destruct port; simpl; try (intros [= <-]; reflexivity).
  destruct (String.eqb (PyStr.lower s) "all"); [intros [= <-]; reflexivity |].
  destruct (PyStr.int_of_str s); simpl; [intros [= <-]; reflexivity | discriminate].
Qed.


Lemma handler_with_token (event context : pyval) (t0 t1 : float) :
  API_TOKEN cfg <> "" ->
  port_control.lambda_handler rt cfg event context t0 t1
  = match port_control.try_block rt cfg event (execution_time_ms rt t0 t1) with
    | (Ok result, sent) => (result, sent)
    | (Raise e, sent) =>
        (port_control.handle_exception e (execution_time_ms rt t0 t1), sent)
    end.
Proof.
  intros H. unfold port_control.lambda_handler.
  apply String.eqb_neq in H. now rewrite H.
Qed.

(** The [try] block of a request with both parameters. *)
Lemma try_block_carries (event port activate t : pyval) :
  carries rt event port activate ->
  port_control.try_block rt cfg event t
  = match port_control.normalize_port port t with
    | inr early => (Ok early, [])
    | inl port' =>
        match port_control.parse_bool rt activate with
        | Raise e =>
            if is_ValueError e then
              (Ok (respond 400 (port_control.error_body
                 "Invalid value for 'activate': expected boolean (true/false) or equivalent"
                 t)), [])
            else (Raise e, [])
        | Ok b =>
            match port_control.control_port rt cfg port' b with
            | (Raise e, sent) => (Raise e, sent)
            | (Ok result, sent) => (port_control.wrap_result result t, sent)
            end
        end
    end.
Proof.
  intros (Hread & Hp & Ha). unfold port_control.try_block. rewrite Hread.
  destruct port; try congruence; destruct activate; try congruence; reflexivity.
Qed.

Lemma parse_bool_raises (v : pyval) (e : exn) :
  port_control.parse_bool rt v = Raise e -> is_ValueError e = true.
Proof.
  destruct v; unfold port_control.parse_bool; cbv zeta;
    repeat match goal with
           | |- context [if ?c then _ else _] => destruct c
           end;
    try discriminate; intros [= <-]; reflexivity.
Qed.

(** The [try] block once the parameters are accepted: the call of
    [control_port] decides. *)
Lemma try_block_call (event port activate port' t : pyval) (b : bool) :
  carries rt event port activate ->
  normalized port = Some port' ->
  port_control.parse_bool rt activate = Ok b ->
  port_control.try_block rt cfg event t
  = match port_control.control_port rt cfg port' b with
    | (Raise e, sent) => (Raise e, sent)
    | (Ok result, sent) => (port_control.wrap_result result t, sent)
    end.
Proof.
  intros Hc Hn Hb. rewrite (try_block_carries _ _ _ _ Hc).
  now rewrite (normalized_some _ _ _ Hn), Hb.
Qed.

Lemma control_port_sends (port' api : pyval) (b : bool) :
  port_control.api_port rt cfg port' = Ok api ->
  port_control.control_port rt cfg port' b
  = (match urlopen rt (port_control.port_control_request cfg api b) with
     | Failure e => Raise e
     | Body text =>
         match json_loads rt text with
         | None => Raise (raised (json_refusal rt text))
         | Some raw => port_control.offset_response cfg raw
         end
     end, [port_control.port_control_request cfg api b]).
Proof. intros H. unfold port_control.control_port. now rewrite H. Qed.

Lemma control_port_refuses (port' : pyval) (b : bool) (e : exn) :
  port_control.api_port rt cfg port' = Raise e ->
  port_control.control_port rt cfg port' b = (Raise e, []).
Proof. intros H. unfold port_control.control_port. now rewrite H. Qed.

Lemma api_port_in_range (p : Z) :
  in_range cfg p ->
  port_control.api_port rt cfg (PInt p)
  = Ok (PInt (if PORT_OFFSET cfg then p - 1 else p)).
Proof.
  unfold in_range, port_control.api_port. simpl.
  destruct (PORT_OFFSET cfg); intros H.
  - replace (p <? 1) with false by (symmetry; apply Z.ltb_ge; lia).
    replace (p >? 12) with false by (symmetry; rewrite Z.gtb_ltb; apply Z.ltb_ge; lia).
    reflexivity.
  - replace (p <? 0) with false by (symmetry; apply Z.ltb_ge; lia).
    replace (p >? 11) with false by (symmetry; rewrite Z.gtb_ltb; apply Z.ltb_ge; lia).
    reflexivity.
Qed.

(** The message of the range check, for the active numbering. *)
Lemma api_port_out_of_range (port : pyval) (n : Z) :
  as_int port = Some n -> ~ in_range cfg n ->
  port_control.api_port rt cfg port
  = Raise (ValueError
      ((if PORT_OFFSET cfg
        then "FireBreak port must be an integer between 1 and 12 (physical numbering), got: "
        else "FireBreak port must be an integer between 0 and 11 (API numbering), got: ")
       ++ py_str rt port)).
Proof.
  unfold in_range, port_control.api_port. intros -> H.
  destruct (PORT_OFFSET cfg).
  - replace ((n <? 1) || (n >? 12)) with true; [reflexivity |].
    symmetry. apply orb_true_iff. rewrite Z.gtb_ltb, !Z.ltb_lt. lia.
  - replace ((n <? 0) || (n >? 11)) with true; [reflexivity |].
    symmetry. apply orb_true_iff. rewrite Z.gtb_ltb, !Z.ltb_lt. lia.
Qed.

End ControlSteps.

(** ** Port translation *)

Section PortTranslation.
Import Scenario.

Lemma offset_response_dict (cfg : config) (d : dict) (n : Z) :
  dict_get "port" d = Some (PInt n) ->
  port_control.offset_response cfg (PDict d)
  = Ok (PDict (if PORT_OFFSET cfg then dict_set "port" (PInt (n + 1)) d else d)).
Proof.
  intros H. unfold port_control.offset_response.
  destruct (PORT_OFFSET cfg); [|reflexivity]. now rewrite H.
Qed.

(** C3: with physical mode off every port of 0 to 11 is sent unchanged; with
    physical mode on every port p of 1 to 12 is sent as p - 1; and for every
    valid port under either mode the translation of the response gives the
    port back, on a status object that holds the device port and through
    [control_port] when the device answers with such an object. *)
Theorem port_translation_round_trip (rt : runtime) (cfg : config) (p : Z) :
  (PORT_OFFSET cfg = false -> 0 <= p <= 11 ->
   port_control.api_port rt cfg (PInt p) = Ok (PInt p))
  /\ (PORT_OFFSET cfg = true -> 1 <= p <= 12 ->
      port_control.api_port rt cfg (PInt p) = Ok (PInt (p - 1)))
  /\ (in_range cfg p ->
      exists q,
        port_control.api_port rt cfg (PInt p) = Ok (PInt q)
        /\ (forall d, dict_get "port" d = Some (PInt q) ->
              exists d',
                port_control.offset_response cfg (PDict d) = Ok (PDict d')
                /\ dict_get "port" d' = Some (PInt p)
                /\ forall k, k <> "port" -> dict_get k d' = dict_get k d)
        /\ (forall b text d,
              urlopen rt (port_control.port_control_request cfg (PInt q) b) = Body text ->
              json_loads rt text = Some (PDict d) ->
              dict_get "port" d = Some (PInt q) ->
              exists d',
                port_control.control_port rt cfg (PInt p) b
                = (Ok (PDict d'), [port_control.port_control_request cfg (PInt q) b])
                /\ dict_get "port" d' = Some (PInt p))).
Proof.
  assert (Hback : forall q, q = (if PORT_OFFSET cfg then p - 1 else p) ->
            forall d, dict_get "port" d = Some (PInt q) ->
            exists d',
              port_control.offset_response cfg (PDict d) = Ok (PDict d')
              /\ dict_get "port" d' = Some (PInt p)
              /\ forall k, k <> "port" -> dict_get k d' = dict_get k d).
  { intros q -> d Hd. rewrite (offset_response_dict cfg d _ Hd).
    destruct (PORT_OFFSET cfg).
    - exists (dict_set "port" (PInt (p - 1 + 1)) d). split; [reflexivity |]. split.
      + rewrite dict_get_set_same. do 2 f_equal. lia.
      + intros k Hk. now apply dict_get_set_other.
    - exists d. repeat split; assumption. }
  split; [|split].
  - intros Hoff Hp. rewrite (api_port_in_range rt cfg p); unfold in_range; now rewrite Hoff.
  - intros Hoff Hp. rewrite (api_port_in_range rt cfg p); unfold in_range; now rewrite Hoff.
  - intros Hp. exists (if PORT_OFFSET cfg then p - 1 else p).
    pose proof (api_port_in_range rt cfg p Hp) as Hapi.
    split; [exact Hapi |]. split; [now apply Hback |].
    intros b text d Hurl Hjson Hd.
    destruct (Hback _ eq_refl d Hd) as (d' & Hoff & Hport & _).
    exists d'. split; [|exact Hport].
    rewrite (control_port_sends rt cfg _ _ b Hapi), Hurl, Hjson, Hoff. reflexivity.
Qed.

Lemma port_translation_round_trip_witness :
  port_control.api_port (sample_runtime echo_device) (sample_config "token" true) (PInt 12)
  = Ok (PInt 11)
  /\ port_control.api_port (sample_runtime echo_device) (sample_config "token" false) (PInt 11)
     = Ok (PInt 11)
  /\ exists d',
       fst (port_control.control_port (sample_runtime echo_device)
              (sample_config "token" true) (PInt 12) false) = Ok (PDict d')
       /\ dict_get "port" d' = Some (PInt 12).
Proof.
  split; [|split].
  - apply (proj1 (proj2 (port_translation_round_trip
             (sample_runtime echo_device) (sample_config "token" true) 12)));
      [reflexivity | lia].
  - apply (proj1 (port_translation_round_trip
             (sample_runtime echo_device) (sample_config "token" false) 11));
      [reflexivity | lia].
  - destruct (proj2 (proj2 (port_translation_round_trip
             (sample_runtime echo_device) (sample_config "token" true) 12)))
      as (q & Hq & _ & Hcall).
    + unfold in_range. simpl. lia.
    + assert (q = 11) by (vm_compute in Hq; congruence). subst q.
      destruct (Hcall false (status_text 11 "false")
                  [("port", PInt 11); ("active", PBool false)])
        as (d' & Hc & Hp); try reflexivity.
      exists d'. rewrite Hc. split; [reflexivity | exact Hp].
Defined.

(** C6: a port outside the range of the active numbering makes
    [control_port] fail, before any request is sent, with a message that
    names the numbering and its range, and the handler returns that message
    with status 400. *)
Theorem out_of_range_port_rejected (rt : runtime) (cfg : config) (p : Z) :
  ~ in_range cfg p ->
  let msg :=
    (if PORT_OFFSET cfg
     then "FireBreak port must be an integer between 1 and 12 (physical numbering), got: "
     else "FireBreak port must be an integer between 0 and 11 (API numbering), got: ")
    ++ PyStr.str_of_int p in
  (forall b, port_control.control_port rt cfg (PInt p) b = (Raise (ValueError msg), []))
  /\ (forall event port activate b context t0 t1,
        API_TOKEN cfg <> "" ->
        carries rt event port activate ->
        normalized port = Some (PInt p) ->
        port_control.parse_bool rt activate = Ok b ->
        port_control.lambda_handler rt cfg event context t0 t1
        = (respond 400 (port_control.error_body msg (execution_time_ms rt t0 t1)), [])).
Proof.
  intros Hp msg.
  assert (Hcp : forall b,
            port_control.control_port rt cfg (PInt p) b = (Raise (ValueError msg), [])).
  { intros b. apply control_port_refuses.
    now rewrite (api_port_out_of_range rt cfg (PInt p) p eq_refl Hp). }
  split; [exact Hcp |].
  intros event port activate b context t0 t1 Htok Hc Hn Hb.
  rewrite (handler_with_token rt cfg event context t0 t1 Htok).
  rewrite (try_block_call rt cfg _ _ _ _ _ b Hc Hn Hb), Hcp. reflexivity.
Qed.

Lemma out_of_range_port_rejected_witness :
  port_control.lambda_handler (sample_runtime echo_device) (sample_config "token" true)
    (direct_event (PStr "13") (PBool true)) PNone 0%float 0%float
  = (respond 400
       (port_control.error_body
          "FireBreak port must be an integer between 1 and 12 (physical numbering), got: 13"
          (execution_time_ms (sample_runtime echo_device) 0%float 0%float)), []).
Proof.
  apply (proj2 (out_of_range_port_rejected
                  (sample_runtime echo_device) (sample_config "token" true) 13
                  ltac:(unfold in_range; simpl; lia))
           (direct_event (PStr "13") (PBool true)) (PStr "13") (PBool true) true).
  - discriminate.
  - repeat split; discriminate.
  - reflexivity.
  - reflexivity.
Defined.




End PortTranslation.

(** ** Boolean ports *)

Section BooleanPort.
Import Scenario.

(** C10, as the code has it: a boolean port is taken for the integer 0 or 1
    by the range check.  With physical mode off it passes the check and is
    sent as the boolean it is, not as a number; with physical mode on, True
    is sent as the device port 0 and False fails the range check. *)
Theorem boolean_port_accepted (rt : runtime) (cfg : config) (activate : bool) :
  (PORT_OFFSET cfg = false ->
   forall b,
     snd (port_control.control_port rt cfg (PBool b) activate)
     = [port_control.port_control_request cfg (PBool b) activate]
     /\ req_data (port_control.port_control_request cfg (PBool b) activate)
        = Some (PDict [("port", PBool b); ("activate", PBool activate)]))
  /\ (PORT_OFFSET cfg = true ->
      snd (port_control.control_port rt cfg (PBool true) activate)
      = [port_control.port_control_request cfg (PInt 0) activate]
      /\ port_control.control_port rt cfg (PBool false) activate
         = (Raise (ValueError
              "FireBreak port must be an integer between 1 and 12 (physical numbering), got: False"),
            [])).
Proof.
  split; intros Hoff.
  - intros b. split; [|reflexivity].
    assert (Hapi : port_control.api_port rt cfg (PBool b) = Ok (PBool b))
      by (unfold port_control.api_port; rewrite Hoff; now destruct b).
    now rewrite (control_port_sends rt cfg _ _ activate Hapi).
  - split.
    + assert (Hapi : port_control.api_port rt cfg (PBool true) = Ok (PInt 0))
        by (unfold port_control.api_port; now rewrite Hoff).
      now rewrite (control_port_sends rt cfg _ _ activate Hapi).
    + apply control_port_refuses. unfold port_control.api_port. now rewrite Hoff.
Qed.

Lemma boolean_port_accepted_witness :
  snd (port_control.control_port (sample_runtime echo_device) (sample_config "token" true)
         (PBool true) true)
  = [port_control.port_control_request (sample_config "token" true) (PInt 0) true].
Proof.
  apply (proj1 (proj2 (boolean_port_accepted (sample_runtime echo_device)
                         (sample_config "token" true) true) eq_refl)).
Defined.

(** With physical mode off the port True does not reach the device as the
    number 1: the request carries the boolean. *)
Lemma boolean_port_not_sent_as_one :
  snd (port_control.control_port (sample_runtime echo_device) (sample_config "token" false)
         (PBool true) true)
  <> [port_control.port_control_request (sample_config "token" false) (PInt 1) true].
Proof. vm_compute. intros H. discriminate H. Qed.

End BooleanPort.



(** ** Status codes *)

Section StatusCodes.
Import Scenario Mapping.

Variable rt : runtime.
Variable cfg : config.















End StatusCodes.


Section StatusCodeSamples.
Import Scenario.



End StatusCodeSamples.

(** ** The shape of the envelopes *)

Section Envelopes.
Import Scenario.

(** C8, as the code has it: the port control handler puts a list result
    under [ports] next to the time, and copies the fields of a dict result
    to the top level next to the time; the port status handler puts every
    result it returns under [ports], whatever its shape. *)
Theorem result_wrapping (rt : runtime) (cfg : config) (event context : pyval)
    (t0 t1 : float) :
  API_TOKEN cfg <> "" ->
  let t := execution_time_ms rt t0 t1 in
  (forall port activate port' b result sent,
     carries rt event port activate ->
     normalized port = Some port' ->
     port_control.parse_bool rt activate = Ok b ->
     port_control.control_port rt cfg port' b = (Ok result, sent) ->
     (forall l, result = PList l ->
        fst (port_control.lambda_handler rt cfg event context t0 t1)
        = respond 200 (PDict [("ports", PList l); ("executionTimeMs", t)]))
     /\ (forall d, result = PDict d ->
           fst (port_control.lambda_handler rt cfg event context t0 t1)
           = respond 200 (PDict (dict_set "executionTimeMs" t d))
           /\ dict_get "executionTimeMs" (dict_set "executionTimeMs" t d) = Some t
           /\ forall k, k <> "executionTimeMs" ->
                dict_get k (dict_set "executionTimeMs" t d) = dict_get k d))
  /\ (forall data sent,
        port_status.fetch_port_status rt cfg = (Ok data, sent) ->
        port_status.has_len data = true ->
        fst (port_status.lambda_handler rt cfg event context t0 t1)
        = respond 200 (PDict [("ports", data); ("executionTimeMs", t)])).
Proof.
  intros Htok t. split.
  - intros port activate port' b result sent Hc Hn Hb Hcall.
    rewrite (handler_with_token rt cfg event context t0 t1 Htok).
    rewrite (try_block_call rt cfg _ _ _ _ _ b Hc Hn Hb), Hcall.
    split.
    + intros l ->. reflexivity.
    + intros d ->. split; [reflexivity |]. split.
      * apply dict_get_set_same.
      * intros k Hk. now apply dict_get_set_other.
  - intros data sent Hfetch Hlen. unfold port_status.lambda_handler.
    apply String.eqb_neq in Htok. rewrite Htok.
    unfold port_status.try_block. now rewrite Hfetch, Hlen.
Qed.

Lemma result_wrapping_witness :
  fst (port_control.lambda_handler (sample_runtime echo_device) (sample_config "token" true)
         (direct_event (PInt 12) (PBool false)) PNone 0%float 0%float)
  = respond 200
      (PDict (dict_set "executionTimeMs"
                (execution_time_ms (sample_runtime echo_device) 0%float 0%float)
                [("port", PInt 12); ("active", PBool false)])).
Proof.
  refine (proj1 (proj2 (proj1 (result_wrapping (sample_runtime echo_device)
                   (sample_config "token" true)
                   (direct_event (PInt 12) (PBool false)) PNone 0%float 0%float
                   ltac:(discriminate))
            (PInt 12) (PBool false) (PInt 12) false
            (PDict [("port", PInt 12); ("active", PBool false)])
            [port_control.port_control_request (sample_config "token" true) (PInt 11) false]
            _ eq_refl eq_refl eq_refl) _ eq_refl)).
  repeat split; discriminate.
Defined.

(** The port status handler does not merge a single status object into the
    body: it goes under [ports] like any other result. *)
Lemma status_object_is_nested :
  fst (port_status.lambda_handler (sample_runtime single_device)
         (sample_config "token" false) (PDict []) PNone 0%float 0%float)
  = respond 200
      (PDict [("ports", PDict [("port", PInt 0); ("active", PBool true)]);
              ("executionTimeMs",
               execution_time_ms (sample_runtime single_device) 0%float 0%float)])
  /\ fst (port_status.lambda_handler (sample_runtime single_device)
            (sample_config "token" false) (PDict []) PNone 0%float 0%float)
     <> respond 200
          (PDict (dict_set "executionTimeMs"
                    (execution_time_ms (sample_runtime single_device) 0%float 0%float)
                    [("port", PInt 0); ("active", PBool true)])).
Proof.
  assert (E : fst (port_status.lambda_handler (sample_runtime single_device)
                     (sample_config "token" false) (PDict []) PNone 0%float 0%float)
              = respond 200
                  (PDict [("ports", PDict [("port", PInt 0); ("active", PBool true)]);
                          ("executionTimeMs",
                           execution_time_ms (sample_runtime single_device)
                             0%float 0%float)]))
    by reflexivity.
  split; [exact E |]. rewrite E. simpl. intros H. discriminate H.
Qed.

(** Every envelope of the port status handler has the time. *)
Lemma status_envelope_has_timing (rt : runtime) (cfg : config) (event context : pyval)
    (t0 t1 : float) :
  has_timing (fst (port_status.lambda_handler rt cfg event context t0 t1)) = true.
Proof.
  unfold port_status.lambda_handler.
  destruct (String.eqb (API_TOKEN cfg) ""); [reflexivity |].
  unfold port_status.try_block.
  destruct (port_status.fetch_port_status rt cfg) as [[data|e] sent].
  - destruct (port_status.has_len data); reflexivity.
  - destruct e; reflexivity.
Qed.

Lemma handle_exception_has_timing (e : exn) (t : pyval) :
  has_timing (port_control.handle_exception e t) = true.
Proof. destruct e; reflexivity. Qed.

Lemma wrap_result_has_timing (result t : pyval) (env : envelope) :
  port_control.wrap_result result t = Ok env -> has_timing env = true.
Proof.
  destruct result; simpl; try discriminate; intros [= <-]; [reflexivity |].
  unfold has_timing. simpl. now rewrite dict_get_set_same.
Qed.

(** Every envelope of the port control handler has the time, but the one
    for a request body that is not JSON. *)
Lemma control_envelope_has_timing (rt : runtime) (cfg : config) (event context : pyval)
    (t0 t1 : float) :
  has_timing (fst (port_control.lambda_handler rt cfg event context t0 t1)) = true
  \/ (API_TOKEN cfg <> "" /\ port_control.read_parameters rt event = Ok None).
Proof.
  unfold port_control.lambda_handler.
  destruct (String.eqb (API_TOKEN cfg) "") eqn:Htok; [now left |].
  apply String.eqb_neq in Htok.
  unfold port_control.try_block.
  destruct (port_control.read_parameters rt event) as [[[port activate]|]|e];
    [|right; now split | left; apply handle_exception_has_timing].
  left.
  assert (Hcall : forall port',
    has_timing (fst
      match
        match port_control.parse_bool rt activate with
        | Ok b =>
            match port_control.control_port rt cfg port' b with
            | (Ok result, sent) =>
                (port_control.wrap_result result (execution_time_ms rt t0 t1), sent)
            | (Raise e, sent) => (Raise e, sent)
            end
        | Raise e =>
            if is_ValueError e
            then (Ok (respond 400 (port_control.error_body
                   "Invalid value for 'activate': expected boolean (true/false) or equivalent"
                   (execution_time_ms rt t0 t1))), [])
            else (Raise e, [])
        end
      with
      | (Ok result, sent) => (result, sent)
      | (Raise e, sent) =>
          (port_control.handle_exception e (execution_time_ms rt t0 t1), sent)
      end) = true).
  { intros port'.
    destruct (port_control.parse_bool rt activate) as [b|e].
    - destruct (port_control.control_port rt cfg port' b) as [[result|e] sent];
        [|apply handle_exception_has_timing].
      destruct (port_control.wrap_result result _) as [env|e] eqn:W;
        [now apply wrap_result_has_timing in W | apply handle_exception_has_timing].
    - destruct (is_ValueError e); [reflexivity | apply handle_exception_has_timing]. }
  destruct port; try reflexivity;
    destruct activate; try reflexivity;
    try apply Hcall;
    unfold port_control.normalize_port;
    destruct (String.eqb (PyStr.lower s) "all"); try apply Hcall;
    destruct (PyStr.int_of_str s); try apply Hcall; reflexivity.
Qed.

(** C1, where the code departs from it: with a credential configured, a
    request whose body is not JSON gets status 400 and a body that holds
    the error message only, without [executionTimeMs]. *)
Theorem invalid_json_body_has_no_timing :
  forall t0 t1,
    port_control.lambda_handler (sample_runtime echo_device) (sample_config "token" false)
      (PDict [("body", PStr "{port: 1")]) PNone t0 t1
    = (respond 400 (PDict [("error", PStr "Invalid JSON in request body")]), [])
    /\ has_timing (fst (port_control.lambda_handler (sample_runtime echo_device)
                          (sample_config "token" false)
                          (PDict [("body", PStr "{port: 1")]) PNone t0 t1)) = false.
Proof. intros t0 t1. split; reflexivity. Qed.

End Envelopes.

(** * Further properties of the code *)

(** ** What validate_api_ip lets through *)

Section ValidateSound.
Import Regex HostSpec Behaviour.

(** [split] is undone by joining with the separator. *)
Lemma split_join (sep : ascii) (s : string) :
  String.concat (String sep "") (PyStr.split sep s) = s.
Proof.
  induction s as [|c s IH]; [reflexivity |].
  cbn [PyStr.split].
  destruct (PyStr.split sep s) as [|x xs] eqn:E.
  { pose proof (split_length sep s) as L. rewrite E in L. discriminate. }
  destruct (Ascii.eqb c sep) eqn:Hc.
  - apply Ascii.eqb_eq in Hc. subst c.
    change (String.concat (String sep "") ("" :: x :: xs))
      with (String sep (String.concat (String sep "") (x :: xs))).
    now rewrite IH.
  - destruct xs as [|y ys].
    + cbn [String.concat] in *. now rewrite IH.
    + change (String.concat (String sep "") (String c x :: y :: ys))
        with (String c (String.concat (String sep "") (x :: y :: ys))).
      now rewrite IH.
Qed.

Local Arguments re_match : simpl never.
Local Arguments PyStr.split : simpl never.

Lemma star_loop_sound (a : regex) (k0 : string -> bool) :
  (forall s k, run a s k = true ->
     exists w1 w2, s = w1 ++ w2 /\ k w2 = true /\ PyStr.all_chars (eats a) w1 = true) ->
  forall n s, star_loop (run a) k0 n s = true ->
    exists w1 w2, s = w1 ++ w2 /\ k0 w2 = true /\ PyStr.all_chars (eats a) w1 = true.
Proof.
  intros IHa n. induction n as [|n IH]; intros s; simpl.
  - destruct (k0 s) eqn:E; [|discriminate]. intros _. exists "", s. auto.
  - destruct (k0 s) eqn:E; [intros _; exists "", s; auto |].
    intros H. apply IHa in H as (u & w & -> & Hk & Hu).
    destruct (String.length w <? String.length (u ++ w))%nat; [|discriminate].
    apply IH in Hk as (v & w2 & -> & Hk & Hv).
    exists (u ++ v), w2. rewrite append_assoc, all_chars_append, Hu, Hv. auto.
Qed.

(** A match splits the string into a part made of characters the
    expression can consume and a rest the continuation accepted. *)
Lemma run_sound (r : regex) :
  forall s k, run r s k = true ->
    exists w1 w2, s = w1 ++ w2 /\ k w2 = true /\ PyStr.all_chars (eats r) w1 = true.
Proof.
  induction r as [|p|a IHa b IHb|a IHa b IHb|a IHa|a IHa|]; simpl; intros s k H.
  - exists "", s. auto.
  - destruct s as [|c s]; [discriminate |]. destruct (p c) eqn:Hc; [|discriminate].
    exists (String c ""), s. simpl. rewrite Hc. auto.
  - apply IHa in H as (u & w & -> & Hb & Hu).
    apply IHb in Hb as (v & w2 & -> & Hk & Hv).
    exists (u ++ v), w2. rewrite append_assoc, all_chars_append. repeat split; [assumption |].
    apply andb_true_iff. split.
    + eapply all_chars_weaken; [|exact Hu]. intros c Hc. simpl. now rewrite Hc.
    + eapply all_chars_weaken; [|exact Hv]. intros c Hc. simpl. now rewrite Hc, orb_true_r.
  - destruct (run a s k) eqn:E.
    + apply IHa in E as (u & w & -> & Hk & Hu). exists u, w. repeat split; [assumption |].
      eapply all_chars_weaken; [|exact Hu]. intros c Hc. simpl. now rewrite Hc.
    + apply IHb in H as (u & w & -> & Hk & Hu). exists u, w. repeat split; [assumption |].
      eapply all_chars_weaken; [|exact Hu]. intros c Hc. simpl. now rewrite Hc, orb_true_r.
  - revert H. apply star_loop_sound. exact IHa.
  - destruct (run a s (fun _ => true)); [|discriminate]. exists "", s. auto.
  - destruct (at_dollar s); [|discriminate]. exists "", s. auto.
Qed.

Lemma at_dollar_line_end (s : string) : at_dollar s = true -> line_end s.
Proof.
  destruct s as [|c [|c' s]]; simpl; intros H; [now left | | discriminate].
  right. apply Ascii.eqb_eq in H. now subst.
Qed.

(** Up to the anchor, an anchored expression consumes all of the string
    but a final newline. *)
Lemma anchored_sound (a : regex) (h : string) :
  run (Cat a Dollar) h (fun _ => true) = true ->
  exists w nl, h = w ++ nl /\ line_end nl /\ PyStr.all_chars (eats a) w = true.
Proof.
  simpl. intros H. apply run_sound in H as (w & nl & -> & Hnl & Hw).
  exists w, nl. repeat split; [|assumption].
  apply at_dollar_line_end. now destruct (at_dollar nl).
Qed.

Lemma ipv4_eats (c : ascii) :
  eats (Cat (times 3 (Cat Regex.octet (Lit "."))) Regex.octet) c = true -> host_char c = true.
Proof. destruct c as [[] [] [] [] [] [] [] []]; vm_compute; intros; congruence. Qed.

Lemma dns_eats (c : ascii) :
  eats (Cat label (Star (Cat (Lit ".") label))) c = true -> host_char c = true.
Proof. destruct c as [[] [] [] [] [] [] [] []]; vm_compute; intros; congruence. Qed.

(** A host that passes the host test is made of host characters, but for
    a final newline. *)
Lemma host_test_sound (h : string) :
  (String.eqb h "localhost" || re_match ipv4_pattern h || re_match dns_pattern h) = true ->
  exists w nl, h = w ++ nl /\ line_end nl /\ PyStr.all_chars host_char w = true.
Proof.
  intros H. apply orb_true_iff in H as [H|H]; [apply orb_true_iff in H as [H|H] |].
  - apply String.eqb_eq in H. subst. exists "localhost", "". repeat split. now left.
  - unfold re_match, ipv4_pattern in H.
    change (run (Cat ?x (Cat ?y Dollar)) h ?k) with (run (Cat (Cat x y) Dollar) h k) in H.
    apply anchored_sound in H as (w & nl & -> & Hnl & Hw).
    exists w, nl. repeat split; [assumption |].
    eapply all_chars_weaken; [apply ipv4_eats | exact Hw].
  - unfold re_match, dns_pattern in H.
    change (run (Cat (Look ?a) ?b) h ?k)
      with (if run a h (fun _ => true) then run b h k else false) in H.
    destruct (run _ h (fun _ => true)); [|discriminate].
    apply anchored_sound in H as (w & nl & -> & Hnl & Hw).
    exists w, nl. repeat split; [assumption |].
    eapply all_chars_weaken; [apply dns_eats | exact Hw].
Qed.

(** X1: among the strings of code points below 256, which are the strings
    [s] ranges over, whatever validate_api_ip accepts is a non-empty host
    made of the letters A-Z and a-z, the digits 0-9, hyphens and dots,
    possibly ended by one newline, alone or followed by a colon and a string
    of digits that [int] reads as a port of 1 to 65535.  Strings with other
    code points are outside this statement: there the source also accepts
    hosts and ports written in the decimal digits of other scripts. *)
Theorem validate_api_ip_sound (s : string) :
  validate_api_ip s = true ->
  exists w nl,
    w <> "" /\ PyStr.all_chars host_char w = true /\ line_end nl
    /\ (s = w ++ nl
        \/ exists ps p,
             s = (w ++ nl) ++ ":" ++ ps
             /\ PyStr.isdigit ps = true
             /\ PyStr.int_of_str ps = Some p /\ 1 <= p <= 65535).
Proof.
  unfold validate_api_ip. fold forbidden.
  destruct (String.eqb s "") eqn:Hs; [discriminate |].
  destruct (existsb _ forbidden); [discriminate |]. cbv zeta.
  pose proof (split_join ":" s) as Hjoin.
  destruct (PyStr.split ":" s) as [|host [|ps [|x xs]]] eqn:Hsplit;
    cbn [length Nat.ltb Nat.leb Nat.eqb nth] in *; try discriminate.
  - (* no port *)
    destruct (_ || _ || _) eqn:Hhost; [|discriminate]. intros _.
    destruct (host_test_sound host Hhost) as (w & nl & -> & Hnl & Hw).
    exists w, nl. cbn [String.concat] in Hjoin. repeat split; try assumption; [|now left].
    intros ->. destruct Hnl as [-> | ->]; discriminate.
  - (* a port *)
    destruct (_ || _ || _) eqn:Hhost; [|discriminate]. cbn [negb].
    destruct (PyStr.isdigit ps) eqn:Hd; [|discriminate]. cbn [negb].
    destruct (PyStr.int_of_str ps) as [p|] eqn:Hp; [|discriminate].
    destruct ((p <? 1) || (p >? 65535)) eqn:Hr; [discriminate |]. intros _.
    apply orb_false_iff in Hr as [H1 H2].
    apply Z.ltb_ge in H1. rewrite Z.gtb_ltb in H2. apply Z.ltb_ge in H2.
    destruct (host_test_sound host Hhost) as (w & nl & -> & Hnl & Hw).
    exists w, nl. repeat split; try assumption.
    + intros ->. destruct Hnl as [-> | ->]; discriminate.
    + right. exists ps, p. cbn [String.concat] in Hjoin.
      repeat split; try assumption. now rewrite <- Hjoin.
Qed.

Lemma validate_api_ip_sound_witness :
  exists w nl,
    w <> "" /\ PyStr.all_chars host_char w = true /\ line_end nl
    /\ ("10.0.0.5:8443" = w ++ nl
        \/ exists ps p,
             "10.0.0.5:8443" = (w ++ nl) ++ ":" ++ ps
             /\ PyStr.isdigit ps = true
             /\ PyStr.int_of_str ps = Some p /\ 1 <= p <= 65535).
Proof. apply (validate_api_ip_sound "10.0.0.5:8443"). vm_compute. reflexivity. Defined.

End ValidateSound.

Section ValidateNewline.
Import Regex HostSpec Behaviour.

Local Arguments re_match : simpl never.
Local Arguments PyStr.split : simpl never.

Lemma match_to_line_end (a : regex) (w nl : string) (k : string -> bool) :
  consumes a w -> line_end nl -> k nl = true -> run (Cat a Dollar) (w ++ nl) k = true.
Proof.
  intros Ha Hnl Hk. simpl. apply Ha.
  destruct Hnl as [-> | ->]; simpl; exact Hk.
Qed.

Lemma ipv4_consumes (a b c d : Z) :
  octet a -> octet b -> octet c -> octet d ->
  consumes (Cat (times 3 (Cat Regex.octet (Lit "."))) Regex.octet) (dotted_quad a b c d).
Proof.
  intros Ha Hb Hc Hd.
  destruct (octet_text a Ha) as [Ma _], (octet_text b Hb) as [Mb _],
           (octet_text c Hc) as [Mc _], (octet_text d Hd) as [Md _].
  assert (E : dotted_quad a b c d
              = ((PyStr.str_of_int a ++ ".") ++ (PyStr.str_of_int b ++ ".")
                 ++ (PyStr.str_of_int c ++ ".") ++ "") ++ PyStr.str_of_int d).
  { unfold dotted_quad. now rewrite !append_assoc. }
  assert (Hdot : consumes (Lit ".") ".") by (apply consumes_sym; reflexivity).
  rewrite E. apply consumes_cat; [|assumption].
  repeat (apply consumes_cat; [now apply consumes_cat |]).
  apply consumes_eps.
Qed.

Lemma name_consumes (l : string) (ls : list string) :
  Forall (fun x => dns_label x = true) (l :: ls) ->
  (String.length (String.concat "." (l :: ls)) <= 253)%nat ->
  consumes (Cat label (Star (Cat (Lit ".") label))) (String.concat "." (l :: ls))
  /\ consumes (Rep 1 253 Dot) (String.concat "." (l :: ls)).
Proof.
  intros Hall Hlen.
  destruct (dns_name_matches l ls Hall Hlen) as (_ & Hch & Hne).
  inversion Hall as [|? ? Hl Hls]; subst.
  destruct (dot_tail_consumes ls Hls) as [Ht _].
  split.
  - rewrite concat_dot. apply consumes_cat; [now apply label_consumes | assumption].
  - destruct (String.concat "." (l :: ls)) as [|c r]; [congruence |].
    cbn [PyStr.all_chars String.length] in Hch, Hlen.
    apply andb_true_iff in Hch as [Hc Hr].
    unfold Rep. apply (consumes_cat _ _ (String c "") r).
    + apply (consumes_cat _ _ (String c "") ""); [|apply consumes_eps].
      apply consumes_sym. now apply host_char_is_dot_class.
    + apply consumes_upto; [|lia].
      eapply all_chars_weaken; [apply host_char_is_dot_class | exact Hr].
Qed.

Lemma host_test_line_end (h nl : string) :
  valid_host h -> line_end nl ->
  (String.eqb (h ++ nl) "localhost" || re_match ipv4_pattern (h ++ nl)
   || re_match dns_pattern (h ++ nl)) = true.
Proof.
  intros Hv Hnl.
  assert (Hdns : forall l ls,
            Forall (fun x => dns_label x = true) (l :: ls) ->
            (String.length (String.concat "." (l :: ls)) <= 253)%nat ->
            re_match dns_pattern (String.concat "." (l :: ls) ++ nl) = true).
  { intros l ls Hall Hlen. destruct (name_consumes l ls Hall Hlen) as [Hlab Hdots].
    unfold re_match, dns_pattern.
    change (run (Cat (Look ?a) ?b) ?s ?k)
      with (if run a s (fun _ => true) then run b s k else false).
    rewrite (match_to_line_end _ _ _ _ Hdots Hnl eq_refl).
    now apply match_to_line_end. }
  destruct Hv as [|a b c d Ha Hb Hc Hd|l ls Hall Hlen].
  - assert (M : re_match dns_pattern (String.concat "." ["localhost"] ++ nl) = true).
    { apply Hdns; [repeat constructor | vm_compute; lia]. }
    change (String.concat "." ["localhost"]) with "localhost" in M.
    rewrite M. now rewrite orb_true_r.
  - assert (M : re_match ipv4_pattern (dotted_quad a b c d ++ nl) = true).
    { unfold re_match, ipv4_pattern.
      change (run (Cat ?x (Cat ?y Dollar)) ?s ?k) with (run (Cat (Cat x y) Dollar) s k).
      apply match_to_line_end; [now apply ipv4_consumes | assumption | reflexivity]. }
    rewrite M. now rewrite orb_true_r.
  - rewrite (Hdns l ls Hall Hlen). now rewrite orb_true_r.
Qed.

(** X2: a newline at the end does not make a host invalid: for every valid
    host of the specification, validate_api_ip also accepts the host followed
    by one newline. *)
Theorem validate_accepts_final_newline (h : string) :
  valid_host h -> validate_api_ip (h ++ String "010" "") = true.
Proof.
  intros Hv. destruct (valid_host_facts h Hv) as (Hne & Hch & _).
  pose proof (host_test_line_end h (String "010" "") Hv (or_intror eq_refl)) as Hok.
  destruct (no_forbidden h Hch) as [Hf Hc].
  unfold validate_api_ip. fold forbidden.
  assert (E : String.eqb (h ++ String "010" "") "" = false)
    by (apply String.eqb_neq; destruct h; [congruence | discriminate]).
  rewrite E.
  assert (F : existsb (fun ch => PyStr.contains_char ch (h ++ String "010" "")) forbidden
              = false).
  { unfold forbidden in *. cbn [existsb] in *.
    rewrite !contains_char_append.
    repeat (apply orb_false_iff in Hf as [? Hf]).
    repeat match goal with H : PyStr.contains_char _ _ = false |- _ => rewrite H; clear H end.
    reflexivity. }
  rewrite F.
  assert (C : PyStr.contains_char ":" (h ++ String "010" "") = false)
    by (rewrite contains_char_append, Hc; reflexivity).
  rewrite (split_no_sep _ _ C). cbn [length Nat.ltb Nat.leb Nat.eqb nth negb].
  rewrite Hok. reflexivity.
Qed.

Lemma validate_accepts_final_newline_witness :
  validate_api_ip ("device.example.com" ++ String "010" "") = true.
Proof.
  apply validate_accepts_final_newline.
  apply (host_dns "device" ["example"; "com"]).
  - repeat constructor.
  - vm_compute. lia.
Defined.

End ValidateNewline.

(** ** The module level code *)

Section ModuleLoad.

(** X3: the module loads exactly when API_IP is set to a string that
    validate_api_ip accepts, and then the configuration holds that string; a
    missing or empty API_IP and a refused one each raise their ValueError. *)
Theorem load_globals_spec (environ : string -> option string) :
  (forall cfg, load_globals environ = Ok cfg ->
     environ "API_IP" = Some (API_IP cfg) /\ validate_api_ip (API_IP cfg) = true)
  /\ (forall ip, environ "API_IP" = Some ip -> validate_api_ip ip = true ->
        exists cfg, load_globals environ = Ok cfg /\ API_IP cfg = ip)
  /\ (environ "API_IP" = None \/ environ "API_IP" = Some "" ->
      load_globals environ = Raise (ValueError "API_IP environment variable is missing"))
  /\ (forall ip, environ "API_IP" = Some ip -> ip <> "" -> validate_api_ip ip = false ->
        load_globals environ
        = Raise (ValueError ("Invalid API_IP environment variable: " ++ ip))).
Proof.
  unfold load_globals. split; [|split; [|split]].
  - intros cfg. destruct (environ "API_IP") as [ip|]; [|discriminate].
    destruct (String.eqb ip ""); [discriminate |].
    destruct (validate_api_ip ip) eqn:E; [|discriminate].
    intros [= <-]. split; [reflexivity | exact E].
  - intros ip -> Hv.
    destruct (String.eqb ip "") eqn:E.
    + apply String.eqb_eq in E. subst. discriminate.
    + rewrite Hv. eexists. split; reflexivity.
  - intros [-> | ->]; reflexivity.
  - intros ip -> Hne Hv. apply String.eqb_neq in Hne. now rewrite Hne, Hv.
Qed.

Lemma load_globals_spec_witness :
  (exists cfg, load_globals (Behaviour.sample_environ "10.0.0.5:8443") = Ok cfg
               /\ API_IP cfg = "10.0.0.5:8443")
  /\ load_globals (Behaviour.sample_environ "1.2.3.4@evil.com")
     = Raise (ValueError "Invalid API_IP environment variable: 1.2.3.4@evil.com").
Proof.
  split.
  - apply (proj1 (proj2 (load_globals_spec (Behaviour.sample_environ "10.0.0.5:8443")))
             "10.0.0.5:8443"); reflexivity.
  - apply (proj2 (proj2 (proj2 (load_globals_spec
                                  (Behaviour.sample_environ "1.2.3.4@evil.com"))))
             "1.2.3.4@evil.com"); [reflexivity | discriminate | reflexivity].
Defined.

(** X4: in a loaded configuration certificate checking is switched off
    unless DISABLE_SSL_VERIFY is set to something that does not lower-case to
    true, and physical numbering is on only when PORT_OFFSET is set to
    something that lower-cases to true; a missing API_TOKEN is the empty
    string. *)
Theorem load_globals_flags (environ : string -> option string) (cfg : config) :
  load_globals environ = Ok cfg ->
  (DISABLE_SSL_VERIFY cfg = false
   <-> exists v, environ "DISABLE_SSL_VERIFY" = Some v /\ PyStr.lower v <> "true")
  /\ (PORT_OFFSET cfg = true
      <-> exists v, environ "PORT_OFFSET" = Some v /\ PyStr.lower v = "true")
  /\ (environ "API_TOKEN" = None -> API_TOKEN cfg = "").
Proof.
  unfold load_globals.
  destruct (environ "API_IP") as [ip|]; [|discriminate].
  destruct (String.eqb ip ""); [discriminate |].
  destruct (validate_api_ip ip); [|discriminate].
  intros [= <-]. cbn [DISABLE_SSL_VERIFY PORT_OFFSET API_TOKEN].
  split; [split | split; [split |]].
  - destruct (environ "DISABLE_SSL_VERIFY") as [v|]; [|discriminate].
    intros H. apply String.eqb_neq in H. now exists v.
  - intros (v & -> & Hv). now apply String.eqb_neq.
  - destruct (environ "PORT_OFFSET") as [v|]; [|discriminate].
    intros H. apply String.eqb_eq in H. now exists v.
  - intros (v & -> & Hv). now apply String.eqb_eq.
  - now intros ->.
Qed.

Lemma load_globals_flags_witness :
  exists cfg,
    load_globals Behaviour.flag_environ = Ok cfg
    /\ DISABLE_SSL_VERIFY cfg = false
    /\ PORT_OFFSET cfg = true
    /\ API_TOKEN cfg = "".
Proof.
  eexists. split; [reflexivity |].
  destruct (load_globals_flags Behaviour.flag_environ _ eq_refl) as (Hssl & Hoff & Htok).
  split; [|split].
  - apply Hssl. exists "False". split; [reflexivity | discriminate].
  - apply Hoff. exists "TRUE". split; reflexivity.
  - apply Htok. reflexivity.
Defined.

End ModuleLoad.

(** ** Lists of status objects *)

Section StatusLists.
Import Scenario Behaviour.








Lemma add1_raises (v : pyval) (e : exn) : add1 v = Raise e -> e = OtherError.
Proof. destruct v; simpl; congruence. Qed.

Lemma shift_port_raises (x : pyval) (e : exn) : shift_port x = Raise e -> e = OtherError.
Proof.
  destruct x; simpl; try congruence.
  - destruct (PyStr.contains "port" s); congruence.
  - destruct (existsb (eq_str "port") l); congruence.
  - destruct (dict_get "port" d) as [v|]; [|congruence].
    destruct (add1 v) eqn:E; simpl; [congruence |].
    intros [= <-]. now apply add1_raises in E.
Qed.

Lemma shift_port_scalar (x : pyval) : is_scalar x = true -> shift_port x = Raise OtherError.
Proof. destruct x; simpl; congruence. Qed.

Lemma for_each_scalar (l : list pyval) (x : pyval) :
  In x l -> is_scalar x = true -> for_each shift_port l = Raise OtherError.
Proof.
  induction l as [|a l IH]; [contradiction |].
  intros [-> | Hin] Hx; cbn [for_each].
  - now rewrite (shift_port_scalar x Hx).
  - destruct (shift_port a) as [a'|e] eqn:E; cbn [bind].
    + now rewrite (IH Hin Hx).
    + now rewrite (shift_port_raises a e E).
Qed.

(** X7: a list from the device that holds a null, a boolean or a number
    among its elements is passed on unchanged with status 200 when physical
    numbering is off, and makes the whole status query fail with status 500
    and the fixed message when physical numbering is on; no part of the list
    is returned then. *)
Theorem status_list_with_scalar (rt : runtime) (cfg : config) (event context : pyval)
    (t0 t1 : float) (text : string) (l : list pyval) (x : pyval) :
  API_TOKEN cfg <> "" ->
  urlopen rt (port_status.port_status_request cfg) = Body text ->
  json_loads rt text = Some (PList l) ->
  In x l -> is_scalar x = true ->
  port_status.lambda_handler rt cfg event context t0 t1
  = (if PORT_OFFSET cfg
     then respond 500 (port_status.error_body
            "Unexpected error occurred while querying Goldilock FireBreak API"
            (execution_time_ms rt t0 t1))
     else respond 200 (PDict [("ports", PList l);
                              ("executionTimeMs", execution_time_ms rt t0 t1)]),
     [port_status.port_status_request cfg]).
Proof.
  intros Htok Hurl Hjson Hin Hx.
  unfold port_status.lambda_handler, port_status.try_block, port_status.fetch_port_status.
  apply String.eqb_neq in Htok. rewrite Htok, Hurl, Hjson.
  destruct (PORT_OFFSET cfg); [|reflexivity].
  now rewrite (for_each_scalar l x Hin Hx).
Qed.

Lemma status_list_with_scalar_witness :
  statusCode (fst (port_status.lambda_handler (list_runtime number_list_text)
                     (sample_config "token" true) (PDict []) PNone 0%float 0%float)) = 500
  /\ statusCode (fst (port_status.lambda_handler (list_runtime number_list_text)
                        (sample_config "token" false) (PDict []) PNone 0%float 0%float)) = 200.
Proof.
  split.
  - rewrite (status_list_with_scalar (list_runtime number_list_text)
               (sample_config "token" true) (PDict []) PNone 0%float 0%float
               number_list_text [PInt 5] (PInt 5)
               ltac:(discriminate) eq_refl eq_refl (or_introl eq_refl) eq_refl).
    reflexivity.
  - rewrite (status_list_with_scalar (list_runtime number_list_text)
               (sample_config "token" false) (PDict []) PNone 0%float 0%float
               number_list_text [PInt 5] (PInt 5)
               ltac:(discriminate) eq_refl eq_refl (or_introl eq_refl) eq_refl).
    reflexivity.
Defined.

End StatusLists.

(** ** The requests the handlers send *)

Section Requests.
Import Scenario Behaviour.

Lemma api_port_device (rt : runtime) (cfg : config) (port p : pyval) :
  port_control.api_port rt cfg port = Ok p -> device_port cfg p.
Proof.
  unfold port_control.api_port, device_port.
  destruct (as_int port) as [n|] eqn:Hi.
  - destruct (PORT_OFFSET cfg) eqn:Hoff.
    + destruct ((n <? 1) || (n >? 12)) eqn:Hr; [discriminate |]. intros [= <-].
      apply orb_false_iff in Hr as [H1 H2].
      apply Z.ltb_ge in H1. rewrite Z.gtb_ltb in H2. apply Z.ltb_ge in H2.
      right; left. exists (n - 1). split; [reflexivity | lia].
    + destruct ((n <? 0) || (n >? 11)) eqn:Hr; [discriminate |]. intros [= <-].
      apply orb_false_iff in Hr as [H1 H2].
      apply Z.ltb_ge in H1. rewrite Z.gtb_ltb in H2. apply Z.ltb_ge in H2.
      destruct port; try discriminate; simpl in Hi.
      * right; right. now exists b.
      * injection Hi as ->. right; left. now exists n.
  - destruct (eq_str "all" port); [|discriminate]. intros [= <-]. now left.
Qed.

Lemma control_port_sent (rt : runtime) (cfg : config) (port : pyval) (b : bool) :
  snd (port_control.control_port rt cfg port b) = []
  \/ exists p, device_port cfg p
               /\ snd (port_control.control_port rt cfg port b)
                  = [port_control.port_control_request cfg p b].
Proof.
  unfold port_control.control_port.
  destruct (port_control.api_port rt cfg port) as [p|e] eqn:E; [|now left].
  right. exists p. split; [now apply api_port_device in E | reflexivity].
Qed.

Lemma try_block_sent (rt : runtime) (cfg : config) (event t : pyval) :
  snd (port_control.try_block rt cfg event t) = []
  \/ exists port' b,
       snd (port_control.try_block rt cfg event t)
       = snd (port_control.control_port rt cfg port' b).
Proof.
  destruct (port_control.read_parameters rt event) as [[[port activate]|]|e] eqn:Hr;
    try (left; unfold port_control.try_block; now rewrite Hr).
  destruct (port_control.try_block rt cfg event t) as [o sent] eqn:Ht.
  assert (Hnone : port = PNone \/ activate = PNone -> sent = []).
  { intros Hn. unfold port_control.try_block in Ht. rewrite Hr in Ht.
    destruct Hn as [-> | ->]; [|destruct port]; now inversion Ht. }
  destruct port eqn:Ep; try (left; apply Hnone; now left);
    destruct activate eqn:Ea; try (left; apply Hnone; now right);
    rewrite <- Ep, <- Ea in Hr;
    (assert (Hc : carries rt event port activate)
       by (subst port activate; repeat split; (exact Hr || discriminate)));
    rewrite (try_block_carries rt cfg event port activate t Hc) in Ht;
    (destruct (port_control.normalize_port port t) as [port'|early];
       [|left; now inversion Ht]);
    (destruct (port_control.parse_bool rt activate) as [flag|err];
       [|left; destruct (is_ValueError err); now inversion Ht]);
    right; exists port', flag;
    destruct (port_control.control_port rt cfg port' flag) as [[result|err] sent'];
    now inversion Ht.
Qed.

(** What the port control handler sends: nothing, or the one request of a
    call of [control_port] made with the credential in place. *)
Lemma control_handler_sent (rt : runtime) (cfg : config) (event context : pyval)
    (t0 t1 : float) :
  snd (port_control.lambda_handler rt cfg event context t0 t1) = []
  \/ (API_TOKEN cfg <> ""
      /\ exists p b, device_port cfg p
           /\ snd (port_control.lambda_handler rt cfg event context t0 t1)
              = [port_control.port_control_request cfg p b]).
Proof.
  unfold port_control.lambda_handler.
  destruct (String.eqb (API_TOKEN cfg) "") eqn:Htok; [now left |].
  apply String.eqb_neq in Htok.
  assert (E : forall x : outcome envelope * list request,
            snd (match x with
                 | (Ok result, sent) => (result, sent)
                 | (Raise e, sent) =>
                     (port_control.handle_exception e (execution_time_ms rt t0 t1), sent)
                 end) = snd x)
    by (intros [[?|?] ?]; reflexivity).
  rewrite E.
  destruct (try_block_sent rt cfg event (execution_time_ms rt t0 t1))
    as [-> | (port' & b & ->)]; [now left |].
  destruct (control_port_sent rt cfg port' b) as [-> | (p & Hp & ->)]; [now left |].
  right. split; [assumption |]. now exists p, b.
Qed.

Lemma status_handler_sent (rt : runtime) (cfg : config) (event context : pyval)
    (t0 t1 : float) :
  snd (port_status.lambda_handler rt cfg event context t0 t1) = []
  \/ (API_TOKEN cfg <> ""
      /\ snd (port_status.lambda_handler rt cfg event context t0 t1)
         = [port_status.port_status_request cfg]).
Proof.
  unfold port_status.lambda_handler.
  destruct (String.eqb (API_TOKEN cfg) "") eqn:Htok; [now left |].
  apply String.eqb_neq in Htok. right. split; [assumption |].
  unfold port_status.try_block.
  destruct (port_status.fetch_port_status rt cfg) as [o sent] eqn:F.
  assert (Hs : sent = [port_status.port_status_request cfg])
    by (unfold port_status.fetch_port_status in F; now inversion F).
  subst sent. destruct o as [data|e]; [destruct (port_status.has_len data) |]; reflexivity.
Qed.

(** X8: an invocation of either handler calls [urllib.request.urlopen] at
    most once, and not at all when API_TOKEN is empty; the call is given a
    request for the fixed path on API_IP over https, with the method of the
    operation and the bearer token in the Authorization header, a timeout of
    10 seconds, and certificate checking on exactly when DISABLE_SSL_VERIFY
    is off.  This is about the calls the handlers make: what urllib sends
    for one call, such as the requests of a redirect it follows, is inside
    [urlopen]. *)
Theorem requests_well_formed (rt : runtime) (cfg : config) (event context : pyval)
    (t0 t1 : float) :
  let well_formed (method path : string) (r : request) :=
    API_TOKEN cfg <> ""
    /\ req_method r = method
    /\ req_url r = "https://" ++ API_IP cfg ++ path
    /\ In ("Authorization", "Bearer " ++ API_TOKEN cfg) (req_headers r)
    /\ req_timeout r = 10
    /\ req_verify_tls r = negb (DISABLE_SSL_VERIFY cfg) in
  ((length (snd (port_control.lambda_handler rt cfg event context t0 t1)) <= 1)%nat
   /\ Forall (well_formed "POST" "/api/websocket/port-control")
        (snd (port_control.lambda_handler rt cfg event context t0 t1)))
  /\ ((length (snd (port_status.lambda_handler rt cfg event context t0 t1)) <= 1)%nat
      /\ Forall (well_formed "GET" "/api/websocket/get-all-status")
           (snd (port_status.lambda_handler rt cfg event context t0 t1))).
Proof.
  intros well_formed. split.
  - destruct (control_handler_sent rt cfg event context t0 t1)
      as [-> | (Htok & p & b & _ & ->)]; (split; [simpl; lia |]); constructor; [|constructor].
    unfold well_formed. repeat split; try assumption; try reflexivity.
    simpl. auto.
  - destruct (status_handler_sent rt cfg event context t0 t1)
      as [-> | (Htok & ->)]; (split; [simpl; lia |]); constructor; [|constructor].
    unfold well_formed. repeat split; try assumption; try reflexivity.
    simpl. auto.
Qed.

(** X9: the port in every request of the port control handler is one the
    device numbering allows: the sentinel all, an integer of 0 to 11, or, with
    physical numbering off only, a boolean; the payload holds that port and a
    boolean [activate]. *)
Theorem device_port_invariant (rt : runtime) (cfg : config) (event context : pyval)
    (t0 t1 : float) (r : request) :
  In r (snd (port_control.lambda_handler rt cfg event context t0 t1)) ->
  exists p b,
    req_data r = Some (PDict [("port", p); ("activate", PBool b)])
    /\ device_port cfg p.
Proof.
  destruct (control_handler_sent rt cfg event context t0 t1)
    as [-> | (_ & p & b & Hp & ->)]; [contradiction |].
  intros [<- | []]. exists p, b. split; [reflexivity | assumption].
Qed.

Lemma device_port_invariant_witness :
  exists p b,
    req_data (port_control.port_control_request (sample_config "token" true) (PInt 11) false)
    = Some (PDict [("port", p); ("activate", PBool b)])
    /\ device_port (sample_config "token" true) p.
Proof.
  apply (device_port_invariant (sample_runtime echo_device) (sample_config "token" true)
           (direct_event (PInt 12) (PBool false)) PNone 0%float 0%float).
  left. reflexivity.
Defined.

End Requests.

(** ** Loosely typed parameters *)

Section LooseParameters.
Import Scenario Behaviour.

(** X10: two requests whose ports the handler takes for the same port and
    whose [activate] values parse to the same boolean get the same envelope and
    cause the same request: a numeric string counts as its integer, any casing
    of all as the sentinel, and yes, 1, on and the like as True. *)
Theorem alike_requests_served_alike (rt : runtime) (cfg : config)
    (event1 event2 port1 port2 activate1 activate2 context1 context2 port' : pyval)
    (b : bool) (t0 t1 : float) :
  carries rt event1 port1 activate1 ->
  carries rt event2 port2 activate2 ->
  normalized port1 = Some port' ->
  normalized port2 = Some port' ->
  port_control.parse_bool rt activate1 = Ok b ->
  port_control.parse_bool rt activate2 = Ok b ->
  port_control.lambda_handler rt cfg event1 context1 t0 t1
  = port_control.lambda_handler rt cfg event2 context2 t0 t1.
Proof.
  intros Hc1 Hc2 Hn1 Hn2 Hb1 Hb2. unfold port_control.lambda_handler.
  destruct (String.eqb (API_TOKEN cfg) ""); [reflexivity |].
  now rewrite (try_block_call rt cfg _ _ _ _ _ b Hc1 Hn1 Hb1),
              (try_block_call rt cfg _ _ _ _ _ b Hc2 Hn2 Hb2).
Qed.

Lemma alike_requests_served_alike_witness :
  port_control.lambda_handler (sample_runtime echo_device) (sample_config "token" true)
    (direct_event (PStr " 0_7 ") (PStr "Yes")) PNone 0%float 0%float
  = port_control.lambda_handler (sample_runtime echo_device) (sample_config "token" true)
      (direct_event (PInt 7) (PBool true)) (PInt 3) 0%float 0%float.
Proof.
  apply (alike_requests_served_alike (sample_runtime echo_device)
           (sample_config "token" true)
           (direct_event (PStr " 0_7 ") (PStr "Yes")) (direct_event (PInt 7) (PBool true))
           (PStr " 0_7 ") (PInt 7) (PStr "Yes") (PBool true) PNone (PInt 3) (PInt 7) true).
  - repeat split; discriminate.
  - repeat split; discriminate.
  - reflexivity.
  - reflexivity.
  - reflexivity.
  - reflexivity.
Defined.

(** X11: when the event has a non-empty [body] string that holds a JSON
    object, only that object is read: a [port] or [activate] that the object
    lacks (or holds as null) is reported missing with status 400 and no request
    is sent, whatever the event holds beside the body. *)
Theorem body_parameters_only (rt : runtime) (cfg : config) (ev body_data : dict)
    (text : string) (context : pyval) (t0 t1 : float) :
  API_TOKEN cfg <> "" ->
  dict_get "body" ev = Some (PStr text) -> text <> "" ->
  json_loads rt text = Some (PDict body_data) ->
  (py_get "port" body_data = PNone ->
   port_control.lambda_handler rt cfg (PDict ev) context t0 t1
   = (respond 400 (port_control.error_body "Missing required parameter: port"
                     (execution_time_ms rt t0 t1)), []))
  /\ (py_get "port" body_data <> PNone -> py_get "activate" body_data = PNone ->
      port_control.lambda_handler rt cfg (PDict ev) context t0 t1
      = (respond 400 (port_control.error_body "Missing required parameter: activate"
                        (execution_time_ms rt t0 t1)), [])).
Proof.
  intros Htok Hbody Htext Hjson.
  rewrite (handler_with_token rt cfg (PDict ev) context t0 t1 Htok).
  assert (Hr : port_control.read_parameters rt (PDict ev)
               = Ok (Some (py_get "port" body_data, py_get "activate" body_data))).
  { unfold port_control.read_parameters. rewrite Hbody. simpl.
    apply String.eqb_neq in Htext. now rewrite Htext, Hjson. }
  unfold port_control.try_block. rewrite Hr. split.
  - now intros ->.
  - intros Hp ->. destruct (py_get "port" body_data); [congruence | | | | | |]; reflexivity.
Qed.

Lemma body_parameters_only_witness :
  port_control.lambda_handler (list_runtime "[]") (sample_config "token" false)
    (PDict [("body", PStr (status_text 3 "true")); ("port", PInt 3); ("activate", PBool true)])
    PNone 0%float 0%float
  = (respond 400 (port_control.error_body "Missing required parameter: activate"
                    (execution_time_ms (list_runtime "[]") 0%float 0%float)), []).
Proof.
  apply (proj2 (body_parameters_only (list_runtime "[]") (sample_config "token" false)
                  [("body", PStr (status_text 3 "true")); ("port", PInt 3);
                   ("activate", PBool true)]
                  [("port", PInt 3); ("active", PBool true)]
                  (status_text 3 "true") PNone 0%float 0%float
                  ltac:(discriminate) eq_refl ltac:(discriminate) eq_refl));
    [discriminate | reflexivity].
Defined.

(** X12: [control_port] itself takes no string but the exact lower-case
    all: any other string, a numeral or another casing of all included, raises
    the ValueError that names the active numbering, and nothing is sent. *)
Theorem control_port_rejects_strings (rt : runtime) (cfg : config) (s : string) (b : bool) :
  s <> "all" ->
  port_control.control_port rt cfg (PStr s) b
  = (Raise (ValueError
       ("FireBreak port must be an integer ("
        ++ (if PORT_OFFSET cfg then "1-12" else "0-11") ++ ", "
        ++ (if PORT_OFFSET cfg then "physical" else "API")
        ++ " numbering) or 'all', got: " ++ s)), []).
Proof.
  intros Hs. apply control_port_refuses. unfold port_control.api_port. simpl.
  apply String.eqb_neq in Hs. now rewrite Hs.
Qed.

Lemma control_port_rejects_strings_witness :
  port_control.control_port (sample_runtime echo_device) (sample_config "token" false)
    (PStr "5") true
  = (Raise (ValueError
       "FireBreak port must be an integer (0-11, API numbering) or 'all', got: 5"), []).
Proof.
  apply (control_port_rejects_strings (sample_runtime echo_device)
           (sample_config "token" false) "5" true).
  discriminate.
Defined.

End LooseParameters.
